(** * AIND-Recognizer: model selectors and recognizer

  A shallow embedding of [my_model_selectors.py] (the Constant, BIC, DIC and
  cross-validation selectors) and of [my_recognizer.py] (the maximum
  likelihood recognizer), with the properties of their search loops.

  Python floats are IEEE 754 binary64 numbers; they are modelled by the
  specification floats of the standard library, so that infinities and NaN
  behave in comparisons as they do in the program.  The hidden Markov model
  library (fitting and scoring), the natural logarithm and the fold
  splitter are collaborators of the program: they are variables of the
  sections below. *)

From Stdlib Require Import ZArith List Bool Lia String Sorted.
From Stdlib Require Import Floats.SpecFloat.
Import ListNotations.

Local Open Scope Z_scope.

(** ** Python floats *)

Module PyFloat.

Definition prec : Z := 53.
Definition emax : Z := 1024.

Definition float : Type := spec_float.

(** [float("inf")], [float("-inf")], [float("nan")] and [0.0]. *)
Definition inf : float := S754_infinity false.
Definition neg_inf : float := S754_infinity true.
Definition nan : float := S754_nan.
Definition zero : float := S754_zero false.

Definition add : float -> float -> float := SFadd prec emax.
Definition sub : float -> float -> float := SFsub prec emax.
Definition mul : float -> float -> float := SFmul prec emax.
Definition div : float -> float -> float := SFdiv prec emax.

(** [x < y], [x <= y], [x > y] and [x >= y] on floats. *)
Definition ltb (x y : float) : bool := SFltb x y.
Definition leb (x y : float) : bool := SFleb x y.
Definition gtb (x y : float) : bool := ltb y x.
Definition geb (x y : float) : bool := leb y x.

Definition is_nan (x : float) : bool :=
  match x with S754_nan => true | _ => false end.

(** The float nearest to an integer (ties to even), as the conversion of an
    [int] operand gives it when the integer is in range. *)
Definition of_Z (z : Z) : float := binary_normalize prec emax z 0 false.

#[global] Arguments add : simpl never.
#[global] Arguments sub : simpl never.
#[global] Arguments mul : simpl never.
#[global] Arguments div : simpl never.
#[global] Arguments of_Z : simpl never.

End PyFloat.


Import PyFloat.

(** ** The Python runtime the program relies on *)

(** The exceptions that the program's expressions can raise.  [LibraryError]
    stands for whatever the model library raises when fitting or scoring
    fails. *)
Inductive exn : Type :=
| AttributeError
| IndexError
| KeyError
| ValueError
| ZeroDivisionError
| OverflowError
| LibraryError.

(** The outcome of evaluating an expression: a value or a raised exception. *)
Inductive result (A : Type) : Type :=
| Ok (a : A)
| Raise (e : exn).

Arguments Ok {A} a.
Arguments Raise {A} e.

Definition bind {A B : Type} (r : result A) (k : A -> result B) : result B :=
  match r with
  | Ok a => k a
  | Raise e => Raise e
  end.

Notation "x <- r ;; k" := (bind r (fun x => k))
  (at level 61, r at next level, right associativity).
Notation "' p <- r ;; k" := (bind r (fun p => k))
  (at level 61, p pattern, r at next level, right associativity).

(** What a [try: ... except: pass] leaves of the value of its body. *)
Definition succeeded {A : Type} (r : result A) : option A :=
  match r with
  | Ok a => Some a
  | Raise _ => None
  end.

(** A [dict] with string keys, in insertion order. *)
Definition dict (V : Type) : Type := list (string * V).

Definition keys {K V : Type} (d : list (K * V)) : list K := map fst d.
Definition values {K V : Type} (d : list (K * V)) : list V := map snd d.

(** [d[k]] *)
Fixpoint dict_get {V : Type} (d : dict V) (k : string) : result V :=
  match d with
  | [] => Raise KeyError
  | (k', v) :: d' => if String.eqb k' k then Ok v else dict_get d' k
  end.

(** [d[k] = v]: the value of an existing key is replaced in place, a new key
    is added at the end. *)
Fixpoint dict_set {V : Type} (d : dict V) (k : string) (v : V) : dict V :=
  match d with
  | [] => [(k, v)]
  | (k', v') :: d' =>
      if String.eqb k' k then (k', v) :: d' else (k', v') :: dict_set d' k v
  end.

(** [range(a, b)] *)
Definition range (a b : Z) : list Z :=
  map (fun i => a + Z.of_nat i) (seq 0 (Z.to_nat (b - a))).

(** [l[0]] *)
Definition first_row {A : Type} (l : list A) : result A :=
  match l with
  | [] => Raise IndexError
  | x :: _ => Ok x
  end.

(** [len(l)] *)
Definition len {A : Type} (l : list A) : Z := Z.of_nat (List.length l).

(** The conversion of an [int] operand of a float operation. *)
Definition float_of_int (z : Z) : result float :=
  match of_Z z with
  | S754_infinity _ => Raise OverflowError
  | f => Ok f
  end.

(** [x / d] for an [int] divisor [d].  A zero divisor raises: the one
    division by zero of the program has the [int] 0 as its dividend. *)
Definition truediv (x : float) (d : Z) : result float :=
  if d =? 0 then Raise ZeroDivisionError
  else fd <- float_of_int d ;; Ok (div x fd).

(** ** Data *)

Definition row : Type := list float.
(** A two-dimensional array of observations, one row per time step. *)
Definition array : Type := list row.
(** The concatenated sequences of a word and the length of each one. *)
Definition Xlengths : Type := (array * list nat)%type.

(** ** Running best of a scan

    The four search loops of the program keep the best score seen so far
    and the key it belongs to, and replace them when a candidate compares
    strictly better.  [keep_best] is one turn of such a loop on a candidate
    that has a score ([Some]) or raised ([None]). *)

Section Scan.
Context {K : Type}.
Variable better : float -> float -> bool.

Definition keep_best (st : float * K) (c : K * option float) : float * K :=
  match snd c with
  | Some s => if better s (fst st) then (s, fst c) else st
  | None => st
  end.

Definition scan (cands : list (K * option float)) (st : float * K) : float * K :=
  fold_left keep_best cands st.

End Scan.

(** ** Collaborators *)

(** The libraries the program calls. *)
Class Library : Type := {
  (** A fitted [GaussianHMM]. *)
  model : Type;
  (** [GaussianHMM(n_components=n, covariance_type="diag", n_iter=1000,
      random_state=seed, verbose=False).fit(X, lengths)], as
      [GaussianHMM_fit n seed X lengths]: with an integer seed, fitting is a
      function of its arguments; it returns the fitted model or raises. *)
  GaussianHMM_fit : Z -> Z -> array -> list nat -> result model;
  (** [model.score(X, lengths)]: the log likelihood, or an exception. *)
  hmm_score : model -> array -> list nat -> result float;
  (** [math.log] on a positive integer. *)
  ln : positive -> float;
  (** The state of the process-wide random generator of the numeric
      library, which [KFold(n_splits=folds, shuffle=True)] uses since it is
      built with no [random_state]. *)
  rng : Type;
  (** [KFold_split folds n g]: the (train indices, test indices) of the
      folds of [n] samples, and the generator after the shuffle. *)
  KFold_split : Z -> nat -> rng -> list (list nat * list nat) * rng;
  (** [combine_sequences(indices, sequences)] of [asl_utils]: the
      concatenated rows and the lengths of the chosen sequences. *)
  combine_sequences : list nat -> list array -> result Xlengths
}.

(** ** [ModelSelector] *)

Record ModelSelector : Type := {
  words : dict (list array);
  hwords : dict Xlengths;
  sequences : list array;
  X : array;
  lengths : list nat;
  this_word : string;
  n_constant : Z;
  min_n_components : Z;
  max_n_components : Z;
  random_state : Z;
  verbose : bool
}.

(** [ModelSelector.__init__]; the defaults of the keyword arguments are
    [n_constant=3], [min_n_components=2], [max_n_components=10],
    [random_state=14], [verbose=False]. *)
Definition ModelSelector_init (all_word_sequences : dict (list array))
    (all_word_Xlengths : dict Xlengths) (this_word : string)
    (n_constant min_n_components max_n_components random_state : Z)
    (verbose : bool) : result ModelSelector :=
  sequences <- dict_get all_word_sequences this_word ;;
  '(X, lengths) <- dict_get all_word_Xlengths this_word ;;
  Ok {| words := all_word_sequences;
        hwords := all_word_Xlengths;
        sequences := sequences;
        X := X;
        lengths := lengths;
        this_word := this_word;
        n_constant := n_constant;
        min_n_components := min_n_components;
        max_n_components := max_n_components;
        random_state := random_state;
        verbose := verbose |}.

(** The [range(self.min_n_components, self.max_n_components + 1)] of the
    three searches. *)
Definition components (self : ModelSelector) : list Z :=
  range (min_n_components self) (max_n_components self + 1).

(** A [SinglesData] test set, as seen through [get_all_Xlengths()]: the
    sequence of each test item, by item number, in the order of the
    mapping. *)
Definition SinglesData : Type := list (Z * Xlengths).

Definition get_all_Xlengths (test_set : SinglesData) : list (Z * Xlengths) :=
  test_set.

Section Program.
Context {L : Library}.

(** [math.log(n)] raises [ValueError] unless [n] is positive. *)
Definition math_log (n : Z) : result float :=
  match n with
  | Zpos p => Ok (ln p)
  | _ => Raise ValueError
  end.

(** [m.score(X, lengths)] where [m] is a model or [None]. *)
Definition score (m : option model) (X : array) (lengths : list nat) : result float :=
  match m with
  | Some m => hmm_score m X lengths
  | None => Raise AttributeError
  end.

(** [base_model]: the fitted model, or [None] when fitting raises (what is
    printed when [verbose] is set is not modelled). *)
Definition base_model (self : ModelSelector) (num_states : Z) : option model :=
  succeeded
    (GaussianHMM_fit num_states (random_state self) (X self) (lengths self)).

(** *** [SelectorConstant] *)

Definition SelectorConstant_select (self : ModelSelector) : result (option model) :=
  let best_num_components := n_constant self in
  Ok (base_model self best_num_components).

(** *** [SelectorBIC] *)

(** The body of the [try] of [SelectorBIC.select]: the BIC score of
    [n_component] states, or the exception raised on the way. *)
Definition bic_try (self : ModelSelector) (n_component : Z) : result float :=
  let model := base_model self n_component in
  logl <- score model (X self) (lengths self) ;;
  row0 <- first_row (X self) ;;
  let parameters := n_component ^ 2 + (2 * n_component * len row0 - 1) in
  logN <- math_log (len (X self)) ;;
  p <- float_of_int parameters ;;
  Ok (add (mul (of_Z (-2)) logl) (mul p logN)).

(** One turn of the loop; the state is [(best_score, best_n_components)]. *)
Definition bic_step (self : ModelSelector) (st : float * Z) (n_component : Z) : float * Z :=
  match bic_try self n_component with
  | Ok bic_score =>
      if ltb bic_score (fst st) then (bic_score, n_component) else st
  | Raise _ => st
  end.

Definition bic_search (self : ModelSelector) : float * Z :=
  fold_left (bic_step self) (components self) (inf, 0).

Definition SelectorBIC_select (self : ModelSelector) : result (option model) :=
  let best_n_components := snd (bic_search self) in
  Ok (base_model self best_n_components).

(** *** [SelectorDIC] *)

(** The inner loop over [self.hwords]: the scores of the model on the
    other words are added to [anti_logl]. *)
Fixpoint dic_others (self : ModelSelector) (model : option model)
    (ws : list string) (anti_logl : float) : result float :=
  match ws with
  | [] => Ok anti_logl
  | word :: ws' =>
      if negb (String.eqb word (this_word self)) then
        '(X, length) <- dict_get (hwords self) word ;;
        s <- score model X length ;;
        dic_others self model ws' (add anti_logl s)
      else dic_others self model ws' anti_logl
  end.

(** The body of the [try] of [SelectorDIC.select]. *)
Definition dic_try (self : ModelSelector) (n_components : Z) : result float :=
  let model := base_model self n_components in
  logl <- score model (X self) (lengths self) ;;
  anti_logl <- dic_others self model (keys (hwords self)) zero ;;
  mean <- truediv anti_logl (len (hwords self) - 1) ;;
  Ok (sub logl mean).

Definition dic_step (self : ModelSelector) (st : float * Z) (n_components : Z) : float * Z :=
  match dic_try self n_components with
  | Ok dic_score =>
      if gtb dic_score (fst st) then (dic_score, n_components) else st
  | Raise _ => st
  end.

Definition dic_search (self : ModelSelector) : float * Z :=
  fold_left (dic_step self) (components self) (neg_inf, 0).

Definition SelectorDIC_select (self : ModelSelector) : result (option model) :=
  let best_n_components := snd (dic_search self) in
  Ok (base_model self best_n_components).

(** *** [SelectorCV] *)

(** [folds = min(3, len(self.sequences))] *)
Definition cv_folds (self : ModelSelector) : Z :=
  Z.min 3 (len (sequences self)).

(** The body of the loop over the splits: a model is fitted on the training
    part of the fold and scored on the test part. *)
Definition cv_fold (self : ModelSelector) (n_components : Z)
    (split : list nat * list nat) : result float :=
  let '(cv_train_idx, cv_test_idx) := split in
  '(X_train, lengths_train) <- combine_sequences cv_train_idx (sequences self) ;;
  '(X_test, lengths_test) <- combine_sequences cv_test_idx (sequences self) ;;
  model <- GaussianHMM_fit n_components (random_state self) X_train lengths_train ;;
  hmm_score model X_test lengths_test.

(** The loop over the splits: the score of each fold is added to
    [total_score]; an exception ends the loop. *)
Fixpoint cv_total (self : ModelSelector) (n_components : Z)
    (splits : list (list nat * list nat)) (total_score : float) : result float :=
  match splits with
  | [] => Ok total_score
  | split :: splits' =>
      s <- cv_fold self n_components split ;;
      cv_total self n_components splits' (add total_score s)
  end.

(** The body of the [try] of [SelectorCV.select]: the value assigned to
    [ave_score], or the exception raised before the assignment; the splits
    are drawn from the generator when the loop over them starts. *)
Definition cv_try (self : ModelSelector) (n_components : Z) (g : rng)
  : result float * rng :=
  let folds := cv_folds self in
  if folds <? 2 then
    let model := base_model self n_components in
    (score model (X self) (lengths self), g)
  else
    let '(splits, g') := KFold_split folds (List.length (sequences self)) g in
    (total_score <- cv_total self n_components splits zero ;;
     truediv total_score folds, g').

(** One turn of the loop: [ave_score] is 0 before the [try], and it is
    compared with [best_score] after it, whether the body raised or not. *)
Definition cv_step (self : ModelSelector) (st : float * Z * rng) (n_components : Z)
  : float * Z * rng :=
  let '(best, g) := st in
  let '(r, g') := cv_try self n_components g in
  let ave_score := match r with Ok s => s | Raise _ => zero end in
  if gtb ave_score (fst best) then (ave_score, n_components, g') else (best, g').

Definition cv_search (self : ModelSelector) (g : rng) : float * Z * rng :=
  fold_left (cv_step self) (components self) (neg_inf, 0, g).

Definition SelectorCV_select (self : ModelSelector) (g : rng)
  : result (option model) * rng :=
  let '(best, g') := cv_search self g in
  let best_n_components := snd best in
  (Ok (base_model self best_n_components), g').

(** *** The selectors as one family

    [select] is the method of the selector's class; only the
    cross-validation selector consults the generator. *)
Inductive selector : Type :=
| SelectorConstant
| SelectorBIC
| SelectorDIC
| SelectorCV.

Definition select (cls : selector) (self : ModelSelector) (g : rng)
  : result (option model) * rng :=
  match cls with
  | SelectorConstant => (SelectorConstant_select self, g)
  | SelectorBIC => (SelectorBIC_select self, g)
  | SelectorDIC => (SelectorDIC_select self, g)
  | SelectorCV => SelectorCV_select self g
  end.

(** The number of states [select] settles on: the argument of its final
    [base_model] call. *)
Definition chosen_n_components (cls : selector) (self : ModelSelector) (g : rng) : Z :=
  match cls with
  | SelectorConstant => n_constant self
  | SelectorBIC => snd (bic_search self)
  | SelectorDIC => snd (dic_search self)
  | SelectorCV => snd (fst (cv_search self g))
  end.

(** *** [recognize] *)

(** One turn of the loop over [models.items()]; the state is
    [(word_probabilities, (best_score, guess))]. *)
Definition recognize_step (X_test : array) (lengths_test : list nat)
    (st : dict float * (float * option string)) (item : string * option model)
  : dict float * (float * option string) :=
  let '(word_probabilities, (best_score, guess)) := st in
  let '(word, model) := item in
  match score model X_test lengths_test with
  | Ok s =>
      let word_probabilities := dict_set word_probabilities word s in
      if gtb s best_score then (word_probabilities, (s, Some word))
      else (word_probabilities, (best_score, guess))
  | Raise _ => st
  end.

(** The body of the loop over the test sequences. *)
Definition recognize_item (models : dict (option model)) (t : Xlengths)
  : dict float * option string :=
  let '(X_test, lengths_test) := t in
  let '(word_probabilities, (_, guess)) :=
    fold_left (recognize_step X_test lengths_test) models ([], (neg_inf, None)) in
  (word_probabilities, guess).

Definition recognize (models : dict (option model)) (test_set : SinglesData)
  : list (dict float) * list (option string) :=
  let test_sequences := values (get_all_Xlengths test_set) in
  fold_left
    (fun '(probabilities, guesses) t =>
       let '(word_probabilities, guess) := recognize_item models t in
       (probabilities ++ [word_probabilities], guesses ++ [guess]))
    test_sequences ([], []).

End Program.

(** ** The criteria in the words of the specification *)

Section Criteria.
Context {L : Library}.

(** The number of free parameters of a model with [K] states on
    observations of dimension [D]: [K^2 + 2 K D - 1]. *)
Definition free_parameters (K D : Z) : Z := K ^ 2 + 2 * K * D - 1.

(** [-2 logL + p log N] *)
Definition bic_formula (logL p logN : float) : float :=
  add (mul (of_Z (-2)) logL) (mul p logN).

(** [K] has the minimal BIC score [s] among the numbers of states of the
    range for which training and scoring succeed, and no smaller number of
    states ties with it. *)
Definition bic_minimal (self : ModelSelector) (K : Z) (s : float) : Prop :=
  In K (components self) /\ bic_try self K = Ok s /\
  (forall K' s', In K' (components self) -> bic_try self K' = Ok s' ->
                 leb s s' = true) /\
  (forall K' s', In K' (components self) -> K' < K -> bic_try self K' = Ok s' ->
                 ltb s s' = true).

End Criteria.

(** ** The DIC criterion in the words of the specification *)

Section CriteriaDIC.
Context {L : Library}.

(** The categories of the corpus other than the selector's own, with their
    concatenated data. *)
Definition other_words (self : ModelSelector) : dict Xlengths :=
  filter (fun e => negb (String.eqb (fst e) (this_word self))) (hwords self).

(** The sum of the log likelihoods that a model gives to a list of data
    sets, taken in order. *)
Fixpoint sum_scores (m : model) (data : list Xlengths) (total : float)
  : result float :=
  match data with
  | [] => Ok total
  | (X, lengths) :: data' =>
      s <- hmm_score m X lengths ;;
      sum_scores m data' (add total s)
  end.

(** [K] has the highest DIC score [s] among the numbers of states of the
    range for which training and scoring succeed, and no smaller number of
    states ties with it. *)
Definition dic_maximal (self : ModelSelector) (K : Z) (s : float) : Prop :=
  In K (components self) /\ dic_try self K = Ok s /\
  (forall K' s', In K' (components self) -> dic_try self K' = Ok s' ->
                 leb s' s = true) /\
  (forall K' s', In K' (components self) -> K' < K -> dic_try self K' = Ok s' ->
                 ltb s' s = true).

End CriteriaDIC.

(** ** Cross-validation without a split *)

Section CriteriaCV.
Context {L : Library}.

(** The value of [ave_score] at the comparison when no split is made: the
    score of the model trained on the full data, or the initial 0 when the
    body raised. *)
Definition unsplit_score (self : ModelSelector) (K : Z) : float :=
  match score (base_model self K) (X self) (lengths self) with
  | Ok s => s
  | Raise _ => zero
  end.

End CriteriaCV.

(** ** The recognizer in the words of the specification *)

Section CriteriaRecognizer.
Context {L : Library}.

(** The categories whose model scores a test item, with their scores, in
    the order of the model map. *)
Fixpoint scored (models : dict (option model)) (X_test : array)
    (lengths_test : list nat) : dict float :=
  match models with
  | [] => []
  | (word, m) :: models' =>
      match score m X_test lengths_test with
      | Ok s => (word, s) :: scored models' X_test lengths_test
      | Raise _ => scored models' X_test lengths_test
      end
  end.

(** [word] is the arg-max of a score map: no score is greater than its
    score, and the scores of the categories before it are smaller. *)
Definition is_argmax (d : dict float) (word : string) (s : float) : Prop :=
  exists before after,
    d = before ++ (word, s) :: after /\
    (forall w' s', In (w', s') before -> ltb s' s = true) /\
    (forall w' s', In (w', s') after -> leb s' s = true).

(** The score map after the loop of [recognize] over the models. *)
Definition record_scores (X_test : array) (lengths_test : list nat)
    (models : dict (option model)) (d : dict float) : dict float :=
  fold_left
    (fun d item =>
       match score (snd item) X_test lengths_test with
       | Ok s => dict_set d (fst item) s
       | Raise _ => d
       end) models d.

(** The candidates of the running maximum of that loop. *)
Definition candidates (X_test : array) (lengths_test : list nat)
    (models : dict (option model)) : list (option string * option float) :=
  map (fun item => (Some (fst item), succeeded (score (snd item) X_test lengths_test)))
      models.

End CriteriaRecognizer.

(** ** A small library and corpus for the examples *)

(** A fitted toy model records its number of states and the lengths of the
    sequences it was trained on. *)
Definition toy_model : Type := (Z * list nat)%type.

(** Fitting fails for no states at all and where [fails] says so. *)
Definition toy_fit (fails : Z -> list nat -> bool) (n seed : Z) (X : array)
    (lengths : list nat) : result toy_model :=
  if (n <=? 0) || fails n lengths then Raise LibraryError else Ok (n, lengths).

(** The natural logarithm of the sizes the examples use, rounded to the
    nearest float. *)
Definition ln_table (p : positive) : float :=
  match p with
  | 1 => zero
  | 2 => S754_finite false 6243314768165359 (-53)
  | 3 => S754_finite false 4947709893870347 (-52)
  | 4 => S754_finite false 6243314768165359 (-52)
  | 15 => S754_finite false 6097986938292255 (-51)
  | _ => nan
  end%positive.

(** Modelled from the spec: [combine_sequences] of [asl_utils], which
    gathers the rows and the lengths of the selected sequences, in the order
    of the indices. *)
Fixpoint combine_sequences_model (indices : list nat) (sequences : list array)
  : result Xlengths :=
  match indices with
  | [] => Ok ([], [])
  | i :: indices' =>
      match nth_error sequences i with
      | None => Raise IndexError
      | Some sequence =>
          '(X, lengths) <- combine_sequences_model indices' sequences ;;
          Ok (sequence ++ X, List.length sequence :: lengths)
      end
  end.

(** The toy library: [scores n train lengths] is the score of the model of
    [n] states trained on sequences of lengths [train], on sequences of
    lengths [lengths]; [splits g] are the folds drawn in state [g] of the
    generator, a counter. *)
Definition toy_library (fails : Z -> list nat -> bool)
    (scores : Z -> list nat -> list nat -> result float)
    (splits : nat -> list (list nat * list nat)) : Library :=
  {| model := toy_model;
     GaussianHMM_fit := toy_fit fails;
     hmm_score := fun m _ lengths => scores (fst m) (snd m) lengths;
     ln := ln_table;
     rng := nat;
     KFold_split := fun _ _ g => (splits g, S g);
     combine_sequences := combine_sequences_model |}.

(** A sequence of [n] observations of dimension 2. *)
Definition rows (n : nat) : array := repeat [zero; zero] n.

Definition xlengths_of (sequences : list array) : Xlengths :=
  (List.concat sequences, map (@List.length row) sequences).

(** The selector of a word of a corpus, with the default seed. *)
Definition selector_of (corpus : dict (list array)) (word : string)
    (sequences : list array) (min_n max_n : Z) : ModelSelector :=
  {| words := corpus;
     hwords := map (fun e => (fst e, xlengths_of (snd e))) corpus;
     sequences := sequences;
     X := fst (xlengths_of sequences);
     lengths := snd (xlengths_of sequences);
     this_word := word;
     n_constant := 3;
     min_n_components := min_n;
     max_n_components := max_n;
     random_state := 14;
     verbose := false |}.

Definition CAT : list array := [rows 5; rows 6; rows 4].
Definition DOG : list array := [rows 3; rows 2].
Definition corpus : dict (list array) := [("CAT"%string, CAT); ("DOG"%string, DOG)].

(** The selector of CAT over 2 to 4 states. *)
Definition cat_selector : ModelSelector := selector_of corpus "CAT" CAT 2 4.

Definition no_failure (n : Z) (lengths : list nat) : bool := false.
Definition no_splits (g : nat) : list (list nat * list nat) := [].

(** A library for which 4 states cannot be fitted and the likelihood of the
    training data is -100 with 2 states and -95 with 3. *)
Definition bic_library : Library :=
  toy_library (fun n _ => n =? 4)
    (fun n _ _ => if n =? 2 then Ok (of_Z (-100)) else Ok (of_Z (-95)))
    no_splits.

(** A library for which every model gives its data the likelihood
    [neg_inf]. *)
Definition impossible_library : Library :=
  toy_library no_failure (fun _ _ _ => Ok neg_inf) no_splits.

(** A library whose models fit CAT (three sequences) better as the states
    grow, and fit the other word worst with 3 states. *)
Definition dic_library : Library :=
  toy_library no_failure
    (fun n _ lengths =>
       if (List.length lengths =? 3)%nat then
         Ok (of_Z (if n =? 2 then -100 else if n =? 3 then -90 else -80))
       else
         Ok (of_Z (if n =? 2 then -150 else if n =? 3 then -200 else -100)))
    no_splits.

(** A library whose models give CAT the likelihood [neg_inf] and any other
    data the likelihood -50. *)
Definition unfit_library : Library :=
  toy_library no_failure
    (fun _ _ lengths =>
       if (List.length lengths =? 3)%nat then Ok neg_inf else Ok (of_Z (-50)))
    no_splits.

(** A corpus of one category, and its selector. *)
Definition cat_corpus : dict (list array) := [("CAT"%string, CAT)].
Definition lone_selector : ModelSelector := selector_of cat_corpus "CAT" CAT 2 10.

(** A category of one sequence, and its selector over 2 and 3 states. *)
Definition SOLO : list array := [rows 5].
Definition solo_selector : ModelSelector :=
  selector_of [("CAT"%string, SOLO)] "CAT" SOLO 2 3.

(** A library that cannot fit any model. *)
Definition failing_library : Library :=
  toy_library (fun _ _ => true) (fun _ _ _ => Ok (of_Z (-1))) no_splits.

(** A category of two sequences, of 1 and 2 rows, its selector over 2 and 3
    states, and its two folds: each sequence is the test part of one. *)
Definition PAIR : list array := [rows 1; rows 2].
Definition pair_selector : ModelSelector :=
  selector_of [("CAT"%string, PAIR); ("DOG"%string, DOG)] "CAT" PAIR 2 3.
Definition two_folds (g : nat) : list (list nat * list nat) :=
  [([1%nat], [0%nat]); ([0%nat], [1%nat])].

Definition trained_on_one_row (lengths : list nat) : bool :=
  match lengths with
  | [1%nat] => true
  | _ => false
  end.

(** The scores of the next three libraries: -10 with 2 states, -3 with
    more. *)
Definition fold_scores (n : Z) (train lengths : list nat) : result float :=
  Ok (of_Z (if n =? 2 then -10 else -3)).

(** A library that cannot fit 2 states on the sequence of one row alone:
    with 2 states the first fold succeeds and the second fails. *)
Definition partial_library : Library :=
  toy_library (fun n lengths => (n =? 2) && trained_on_one_row lengths)
    fold_scores two_folds.

(** A library that cannot fit 2 states on a single sequence: with 2 states
    every fold fails, and the whole data can be fitted. *)
Definition starved_library : Library :=
  toy_library (fun n lengths => (n =? 2) && (List.length lengths =? 1)%nat)
    fold_scores two_folds.

(** A library that cannot fit any model on a single sequence: every fold
    fails for every number of states, and the whole data can be fitted. *)
Definition foldless_library : Library :=
  toy_library (fun n lengths => (List.length lengths =? 1)%nat)
    fold_scores two_folds.

(** A category of four sequences, of 1 to 4 rows, and its selector. *)
Definition QUAD : list array := [rows 1; rows 2; rows 3; rows 4].
Definition quad_selector : ModelSelector :=
  selector_of [("CAT"%string, QUAD)] "CAT" QUAD 2 3.

(** Two partitions of four sequences in three folds: the shuffle puts the
    first two sequences together in the first test part, or the first and
    the third.  The generator gives the first partition in its states 0 and
    1, the second one afterwards. *)
Definition shuffled_folds (g : nat) : list (list nat * list nat) :=
  if (g <? 2)%nat then
    [([2; 3], [0; 1]); ([0; 1; 3], [2]); ([0; 1; 2], [3])]%nat
  else
    [([1; 3], [0; 2]); ([0; 2; 3], [1]); ([0; 1; 2], [3])]%nat.

(** A library whose models of 2 states score -10 everywhere, and whose
    models of 3 states score -1, except on the first two sequences taken
    together, where they score -100. *)
Definition shuffle_library : Library :=
  toy_library no_failure
    (fun n _ lengths =>
       if n =? 2 then Ok (of_Z (-10))
       else match lengths with
            | [1; 2]%nat => Ok (of_Z (-100))
            | _ => Ok (of_Z (-1))
            end)
    shuffled_folds.

(** A model map of two categories, and a test set of two items. *)
Definition two_models : dict (option toy_model) :=
  [("CAT"%string, Some (2, [5; 6; 4]%nat)); ("DOG"%string, Some (3, [3; 2]%nat))].
Definition test_items : SinglesData := [(0, (rows 4, [4%nat])); (1, (rows 2, [2%nat]))].

(** A library whose models of 2 states score -20 and the others -30. *)
Definition recognizer_library : Library :=
  toy_library no_failure
    (fun n _ _ => Ok (of_Z (if n =? 2 then -20 else -30))) no_splits.

(** ** Further notions for the properties of the search loops *)

Section Further.
Context {L : Library}.

(** The state of the generator after one shuffle for each number of states
    of a list. *)
Definition cv_draws (self : ModelSelector) (ks : list Z) (g : rng) : rng :=
  fold_left
    (fun g _ => snd (KFold_split (cv_folds self) (List.length (sequences self)) g))
    ks g.

(** The folds drawn by a run of the cross-validation search with at least
    2 folds: one partition for each number of states of a list, each drawn
    in the state in which the previous shuffle left the generator. *)
Fixpoint cv_drawn (self : ModelSelector) (ks : list Z) (g : rng)
  : list (list (list nat * list nat)) :=
  match ks with
  | [] => []
  | _ :: ks' =>
      let '(splits, g') :=
        KFold_split (cv_folds self) (List.length (sequences self)) g in
      splits :: cv_drawn self ks' g'
  end.

(** An entry of the model map that holds a model and not [None]. *)
Definition has_model (item : string * option model) : bool :=
  match snd item with
  | Some _ => true
  | None => false
  end.

End Further.

(** The state of the search once a number of states has been compared with
    the score 0 of a failure: the best score is above [neg_inf] and not
    below 0, and belongs to a number of states of the list. *)
Definition floored (ks : list Z) (best : float * Z) : Prop :=
  ltb (fst best) zero = false /\ gtb (fst best) neg_inf = true /\
  In (snd best) ks.

(** The best score of the search is [neg_inf] at the default 0, or is
    above [neg_inf] at a number of states of the list. *)
Definition started (ks : list Z) (best : float * Z) : Prop :=
  best = (neg_inf, 0) \/ (gtb (fst best) neg_inf = true /\ In (snd best) ks).

(** A selector whose range of states is empty, one whose word has no
    sequence at all, and a model map whose selections all failed. *)
Definition reversed_selector : ModelSelector := selector_of corpus "CAT" CAT 5 4.
Definition empty_selector : ModelSelector :=
  selector_of [("CAT"%string, [])] "CAT" [] 2 4.
Definition none_models : dict (option toy_model) :=
  [("CAT"%string, None); ("DOG"%string, None)].

(** A library that cannot fit 3 states, and whose models score -150. *)
Definition third_fails_library : Library :=
  toy_library (fun n _ => n =? 3) (fun _ _ _ => Ok (of_Z (-150))) no_splits.

(** A library whose models score CAT (three sequences) -100 and cannot
    score any other data. *)
Definition narrow_library : Library :=
  toy_library no_failure
    (fun _ _ lengths =>
       if (List.length lengths =? 3)%nat then Ok (of_Z (-100))
       else Raise LibraryError)
    no_splits.

(** * Properties *)

(** ** The order of float comparison *)

Module FloatOrder.

Ltac order_cases :=
  repeat match goal with
  | |- context [Z.compare ?a ?b] =>
      destruct (Z.compare_spec a b); subst; simpl
  | |- context [Pos.compare_cont Eq ?a ?b] =>
      change (Pos.compare_cont Eq a b) with (Pos.compare a b);
      destruct (Pos.compare_spec a b); subst; simpl
  end;
  try congruence; try lia.

Ltac float_cases x :=
  destruct x as [[|]|[|]| |[|] ? ?].

Lemma ltb_irrefl (x : float) : ltb x x = false.
Proof.
  unfold ltb, SFltb; destruct x as [[|]|[|]| |[|] p e]; simpl;
    try reflexivity; rewrite Z.compare_refl;
    change (Pos.compare_cont Eq p p) with (Pos.compare p p);
    rewrite Pos.compare_refl; reflexivity.
Qed.

Lemma ltb_trans (x y z : float) :
  ltb x y = true -> ltb y z = true -> ltb x z = true.
Proof.
  unfold ltb, SFltb; float_cases x; float_cases y; float_cases z; simpl;
    try congruence; order_cases.
Qed.

Lemma leb_ltb_trans (x y z : float) :
  leb x y = true -> ltb y z = true -> ltb x z = true.
Proof.
  unfold leb, ltb, SFleb, SFltb; float_cases x; float_cases y; float_cases z;
    simpl; try congruence; order_cases.
Qed.

Lemma ltb_leb_trans (x y z : float) :
  ltb x y = true -> leb y z = true -> ltb x z = true.
Proof.
  unfold leb, ltb, SFleb, SFltb; float_cases x; float_cases y; float_cases z;
    simpl; try congruence; order_cases.
Qed.

Lemma ltb_leb (x y : float) : ltb x y = true -> leb x y = true.
Proof.
  unfold leb, ltb, SFleb, SFltb; destruct (SFcompare x y) as [[| |]|];
    congruence.
Qed.

Lemma gtb_neg_inf (x : float) :
  gtb x neg_inf = true <-> is_nan x = false /\ x <> neg_inf.
Proof.
  unfold gtb, ltb, SFltb, neg_inf; float_cases x; simpl;
    intuition (try congruence).
Qed.

Lemma ltb_inf (x : float) :
  ltb x inf = true <-> is_nan x = false /\ x <> inf.
Proof.
  unfold ltb, SFltb, inf; float_cases x; simpl;
    intuition (try congruence).
Qed.

End FloatOrder.

(** ** The running best *)

Section ScanFacts.
Context {K : Type}.
Variables better better_eq : float -> float -> bool.

Lemma keep_best_some (st : float * K) (k : K) (s : float) :
  keep_best better st (k, Some s) = if better s (fst st) then (s, k) else st.
Proof. reflexivity. Qed.

Lemma keep_best_none (st : float * K) (k : K) :
  keep_best better st (k, None) = st.
Proof. reflexivity. Qed.

Hypothesis better_irrefl : forall x, better x x = false.
Hypothesis better_trans :
  forall x y z, better x y = true -> better y z = true -> better x z = true.
Hypothesis better_eq_trans :
  forall x y z, better_eq x y = true -> better y z = true -> better x z = true.
Hypothesis better_incl : forall x y, better x y = true -> better_eq x y = true.

(** Either no candidate beats the initial score, or the result is the first
    of the candidates that no candidate beats. *)
Lemma scan_spec (cands : list (K * option float)) (st : float * K) :
  (scan better cands st = st /\
   forall k s, In (k, Some s) cands -> better s (fst st) = false) \/
  (exists l1 k s l2,
      cands = l1 ++ (k, Some s) :: l2 /\
      scan better cands st = (s, k) /\
      better s (fst st) = true /\
      (forall k' s', In (k', Some s') l1 -> better_eq s' s = false) /\
      (forall k' s', In (k', Some s') l2 -> better s' s = false)).
Proof.
  unfold scan.
  induction cands as [|c cands IH] using rev_ind.
  - left; split; [reflexivity | intros k s []].
  - rewrite fold_left_app; simpl.
    destruct c as [k [s|]]; rewrite ?keep_best_some, ?keep_best_none.
    + destruct IH as [[E Hno] | (l1 & k0 & s0 & l2 & El & E & Hb & H1 & H2)].
      * rewrite E. destruct (better s (fst st)) eqn:B.
        -- right; exists cands, k, s, []; repeat split; auto.
           ++ intros k' s' Hin.
              destruct (better_eq s' s) eqn:BE; [|reflexivity].
              pose proof (Hno _ _ Hin) as Hs'.
              rewrite (better_eq_trans _ _ _ BE B) in Hs'; discriminate.
           ++ intros k' s' [].
        -- left; split; [reflexivity|].
           intros k' s' Hin; apply in_app_or in Hin as [Hin|[Hin|[]]]; eauto.
           inversion Hin; subst; assumption.
      * rewrite E; simpl. destruct (better s s0) eqn:B.
        -- right; exists cands, k, s, []; repeat split; eauto.
           ++ intros k' s' Hin.
              destruct (better_eq s' s) eqn:BE; [|reflexivity].
              pose proof (better_eq_trans _ _ _ BE B) as B'.
              subst cands; apply in_app_or in Hin as [Hin|[Hin|Hin]].
              ** apply better_incl in B'.
                 rewrite (H1 _ _ Hin) in B'; discriminate.
              ** inversion Hin; subst.
                 rewrite better_irrefl in B'; discriminate.
              ** rewrite (H2 _ _ Hin) in B'; discriminate.
           ++ intros k' s' [].
        -- right; exists l1, k0, s0, (l2 ++ [(k, Some s)]); repeat split; auto.
           ++ subst cands; rewrite <- app_assoc; reflexivity.
           ++ intros k' s' Hin; apply in_app_or in Hin as [Hin|[Hin|[]]]; eauto.
              inversion Hin; subst; assumption.
    + destruct IH as [[E Hno] | (l1 & k0 & s0 & l2 & El & E & Hb & H1 & H2)].
      * left; split; [assumption|].
        intros k' s' Hin; apply in_app_or in Hin as [Hin|[Hin|[]]]; eauto.
        discriminate.
      * right; exists l1, k0, s0, (l2 ++ [(k, None)]); repeat split; auto.
        -- subst cands; rewrite <- app_assoc; reflexivity.
        -- intros k' s' Hin; apply in_app_or in Hin as [Hin|[Hin|[]]]; eauto.
           discriminate.
Qed.

End ScanFacts.

(** ** Ranges *)

Lemma seq_split (s n : nat) (l1 : list nat) (i : nat) (l2 : list nat) :
  seq s n = l1 ++ i :: l2 ->
  (forall x, In x l1 -> (x < i)%nat) /\ (forall x, In x l2 -> (i < x)%nat).
Proof.
  revert s n; induction l1 as [|y l1 IH]; intros s n E.
  - destruct n as [|n]; [discriminate|]; simpl in E.
    inversion E; subst; split; [intros x []|].
    intros x Hx; apply in_seq in Hx; lia.
  - destruct n as [|n]; [discriminate|]; simpl in E.
    inversion E as [[Ey E']]; subst y.
    destruct (IH _ _ E') as [H1 H2]; split; [|assumption].
    intros x [<-|Hx]; [|auto].
    assert (Hi : In i (seq (S s) n)) by (rewrite E'; apply in_elt).
    apply in_seq in Hi; lia.
Qed.

Lemma range_split (a b : Z) (r1 : list Z) (k : Z) (r2 : list Z) :
  range a b = r1 ++ k :: r2 ->
  (forall x, In x r1 -> x < k) /\ (forall x, In x r2 -> k < x).
Proof.
  unfold range; intros E.
  apply map_eq_app in E as (s1 & s2 & Es & E1 & E2).
  apply map_eq_cons in E2 as (i & s2' & -> & Ei & E2).
  destruct (seq_split _ _ _ _ _ Es) as [H1 H2]; subst.
  split; intros x Hx; apply in_map_iff in Hx as (j & <- & Hj);
    [apply H1 in Hj | apply H2 in Hj]; lia.
Qed.

(** A loop written with [fold_left] whose turns are [keep_best] turns. *)
Lemma fold_left_scan {K : Type} (better : float -> float -> bool)
    (f : K -> option float) (step : float * K -> K -> float * K)
    (l : list K) (st : float * K) :
  (forall st n, step st n = keep_best better st (n, f n)) ->
  fold_left step l st = scan better (map (fun n => (n, f n)) l) st.
Proof.
  intros Hstep; unfold scan; revert st.
  induction l as [|n l IH]; intros st; simpl; [reflexivity|].
  rewrite Hstep; apply IH.
Qed.

Section ScanRange.
Variables better better_eq : float -> float -> bool.
Hypothesis better_irrefl : forall x, better x x = false.
Hypothesis better_trans :
  forall x y z, better x y = true -> better y z = true -> better x z = true.
Hypothesis better_eq_trans :
  forall x y z, better_eq x y = true -> better y z = true -> better x z = true.
Hypothesis better_incl : forall x y, better x y = true -> better_eq x y = true.

(** The scan of a range of keys in increasing order: the result is the
    smallest key whose score no other key's score beats, unless no score
    beats the initial one. *)
Lemma scan_range_spec (f : Z -> option float) (a b : Z) (init : float * Z) :
  (exists k s,
      In k (range a b) /\ f k = Some s /\ better s (fst init) = true /\
      scan better (map (fun n => (n, f n)) (range a b)) init = (s, k) /\
      (forall k' s', In k' (range a b) -> f k' = Some s' -> better s' s = false) /\
      (forall k' s', In k' (range a b) -> k' < k -> f k' = Some s' ->
                     better_eq s' s = false)) \/
  (scan better (map (fun n => (n, f n)) (range a b)) init = init /\
   forall k s, In k (range a b) -> f k = Some s -> better s (fst init) = false).
Proof.
  destruct (scan_spec better better_eq better_irrefl better_trans
              better_eq_trans better_incl
              (map (fun n => (n, f n)) (range a b)) init)
    as [[E Hno] | (l1 & k & s & l2 & El & E & Hb & H1 & H2)].
  - right; split; [assumption|].
    intros k s Hk Hf; apply (Hno k).
    apply in_map_iff; exists k; rewrite Hf; auto.
  - left; exists k, s.
    apply map_eq_app in El as (r1 & r2' & Er & E1 & E2).
    apply map_eq_cons in E2 as (k0 & r2 & -> & Ek & E2).
    injection Ek as -> Hfk; subst l1 l2.
    destruct (range_split _ _ _ _ _ Er) as [Hlt Hgt].
    assert (Hin1 : forall k' s', In k' r1 -> f k' = Some s' ->
                                 better_eq s' s = false).
    { intros k' s' Hk' Hf; apply (H1 k').
      apply in_map_iff; exists k'; rewrite Hf; auto. }
    assert (Hin2 : forall k' s', In k' r2 -> f k' = Some s' ->
                                 better s' s = false).
    { intros k' s' Hk' Hf; apply (H2 k').
      apply in_map_iff; exists k'; rewrite Hf; auto. }
    repeat split; auto.
    + rewrite Er; apply in_elt.
    + intros k' s' Hk' Hf; rewrite Er in Hk'.
      apply in_app_or in Hk' as [Hk'|[<-|Hk']].
      * destruct (better s' s) eqn:B; [|reflexivity].
        apply better_incl in B; rewrite (Hin1 _ _ Hk' Hf) in B; discriminate.
      * rewrite Hf in Hfk; injection Hfk as ->; apply better_irrefl.
      * eauto.
    + intros k' s' Hk' Hlt' Hf; rewrite Er in Hk'.
      apply in_app_or in Hk' as [Hk'|[<-|Hk']]; [eauto|lia|].
      apply Hgt in Hk'; lia.
Qed.

End ScanRange.

(** The two instances the program uses: smaller is better, starting from
    [inf], and greater is better, starting from [neg_inf]. *)
Lemma scan_range_min (f : Z -> option float) (a b : Z) (init : float * Z) :
  (exists k s,
      In k (range a b) /\ f k = Some s /\ ltb s (fst init) = true /\
      scan ltb (map (fun n => (n, f n)) (range a b)) init = (s, k) /\
      (forall k' s', In k' (range a b) -> f k' = Some s' -> ltb s' s = false) /\
      (forall k' s', In k' (range a b) -> k' < k -> f k' = Some s' ->
                     leb s' s = false)) \/
  (scan ltb (map (fun n => (n, f n)) (range a b)) init = init /\
   forall k s, In k (range a b) -> f k = Some s -> ltb s (fst init) = false).
Proof.
  apply scan_range_spec.
  - apply FloatOrder.ltb_irrefl.
  - apply FloatOrder.ltb_trans.
  - apply FloatOrder.leb_ltb_trans.
  - apply FloatOrder.ltb_leb.
Qed.

Lemma scan_range_max (f : Z -> option float) (a b : Z) (init : float * Z) :
  (exists k s,
      In k (range a b) /\ f k = Some s /\ gtb s (fst init) = true /\
      scan gtb (map (fun n => (n, f n)) (range a b)) init = (s, k) /\
      (forall k' s', In k' (range a b) -> f k' = Some s' -> gtb s' s = false) /\
      (forall k' s', In k' (range a b) -> k' < k -> f k' = Some s' ->
                     geb s' s = false)) \/
  (scan gtb (map (fun n => (n, f n)) (range a b)) init = init /\
   forall k s, In k (range a b) -> f k = Some s -> gtb s (fst init) = false).
Proof.
  apply scan_range_spec; unfold gtb, geb.
  - apply FloatOrder.ltb_irrefl.
  - intros x y z Hxy Hyz; exact (FloatOrder.ltb_trans z y x Hyz Hxy).
  - intros x y z Hxy Hyz; exact (FloatOrder.ltb_leb_trans z y x Hyz Hxy).
  - intros x y; apply FloatOrder.ltb_leb.
Qed.

(** ** The selectors *)

Lemma succeeded_Some {A : Type} (r : result A) (a : A) :
  succeeded r = Some a <-> r = Ok a.
Proof. destruct r; simpl; split; congruence. Qed.

Section SelectorFacts.
Context {L : Library}.

(** *** BIC *)

Lemma bic_search_scan (self : ModelSelector) :
  bic_search self =
  scan ltb (map (fun n => (n, succeeded (bic_try self n))) (components self))
       (inf, 0).
Proof.
  apply fold_left_scan; intros st n.
  unfold bic_step, keep_best; simpl.
  destruct (bic_try self n); reflexivity.
Qed.

(** The score of a number of states is the BIC formula, whenever the model
    can be trained and scored and the data has a first row. *)
Lemma bic_try_formula (self : ModelSelector) (K : Z) (s : float) :
  bic_try self K = Ok s <->
  exists m logL row0 rest p,
    base_model self K = Some m /\
    hmm_score m (X self) (lengths self) = Ok logL /\
    X self = row0 :: rest /\
    float_of_int (free_parameters K (len row0)) = Ok p /\
    s = bic_formula logL p (ln (Z.to_pos (len (X self)))).
Proof.
  unfold bic_try, bic_formula, free_parameters.
  destruct (base_model self K) as [m|] eqn:Em; cbn [score bind];
    [|split; [discriminate | intros (? & ? & ? & ? & ? & ? & _); discriminate]].
  destruct (hmm_score m (X self) (lengths self)) as [logL|e] eqn:El; cbn [bind];
    [|split; [discriminate|];
      intros (m' & ? & ? & ? & ? & Em' & El' & _); congruence].
  destruct (X self) as [|row0 rest] eqn:EX; cbn [first_row bind];
    [split; [discriminate|];
     intros (? & ? & ? & ? & ? & _ & _ & ? & _); discriminate|].
  replace (K ^ 2 + (2 * K * len row0 - 1))
    with (K ^ 2 + 2 * K * len row0 - 1) by lia.
  assert (EN : math_log (len (row0 :: rest))
               = Ok (ln (Z.to_pos (len (row0 :: rest))))) by reflexivity.
  rewrite EN; cbn [bind].
  destruct (float_of_int (K ^ 2 + 2 * K * len row0 - 1)) as [p|e] eqn:Ep; cbn [bind].
  - split.
    + intros E; injection E as <-.
      exists m, logL, row0, rest, p; repeat split; auto.
    + intros (m' & logL' & row0' & rest' & p' & Em' & El' & Er & Epp & ->).
      injection Em' as <-; injection Er as <- <-.
      rewrite El in El'; injection El' as <-.
      rewrite Ep in Epp; injection Epp as <-; reflexivity.
  - split; [discriminate|].
    intros (m' & logL' & row0' & rest' & p' & _ & _ & Er & Epp & _).
    injection Er as <- <-; rewrite Ep in Epp; discriminate.
Qed.

(** The search ends on the smallest number of states whose score is below
    [inf] and is beaten by no other score, or on 0 when no score is below
    [inf]. *)
Lemma bic_search_spec (self : ModelSelector) :
  (exists K s,
      In K (components self) /\ bic_try self K = Ok s /\ ltb s inf = true /\
      bic_search self = (s, K) /\
      (forall K' s', In K' (components self) -> bic_try self K' = Ok s' ->
                     ltb s' s = false) /\
      (forall K' s', In K' (components self) -> K' < K ->
                     bic_try self K' = Ok s' -> leb s' s = false)) \/
  (bic_search self = (inf, 0) /\
   forall K s, In K (components self) -> bic_try self K = Ok s ->
               ltb s inf = false).
Proof.
  rewrite bic_search_scan; unfold components.
  destruct (scan_range_min (fun n => succeeded (bic_try self n))
              (min_n_components self) (max_n_components self + 1) (inf, 0))
    as [(K & s & HK & Hs & Hb & E & Hmin & Hfirst) | [E Hno]].
  - left; exists K, s; apply succeeded_Some in Hs; repeat split; auto.
    + intros K' s' HK' Hs'; apply (Hmin K'); [|apply succeeded_Some]; auto.
    + intros K' s' HK' Hlt Hs'; apply (Hfirst K'); [| |apply succeeded_Some]; auto.
  - right; split; [assumption|].
    intros K s HK Hs; apply (Hno K); [|apply succeeded_Some]; auto.
Qed.

(** C1 (amended).  For every number of states [K] of the range for which
    training and scoring succeed, the BIC selector computes the score
    [-2 logL + p log N] with [p = K^2 + 2 K D - 1], [D] the length of the
    first row and [N] the number of rows of the concatenated data.  It
    returns the model retrained for the smallest [K] whose score is below
    [inf] and is minimal among the successful ones (a score that is [inf] or
    NaN is never chosen), and the model of 0 states when no score is below
    [inf].  In particular it returns the model of the [K] of minimal score,
    ties won by the smaller [K], as soon as that score is below [inf]. *)
Theorem SelectorBIC_select_minimal (self : ModelSelector) :
  (forall K s,
      bic_try self K = Ok s <->
      exists m logL row0 rest p,
        base_model self K = Some m /\
        hmm_score m (X self) (lengths self) = Ok logL /\
        X self = row0 :: rest /\
        float_of_int (free_parameters K (len row0)) = Ok p /\
        s = bic_formula logL p (ln (Z.to_pos (len (X self))))) /\
  ((exists K s,
       In K (components self) /\ bic_try self K = Ok s /\ ltb s inf = true /\
       (forall K' s', In K' (components self) -> bic_try self K' = Ok s' ->
                      ltb s' s = false) /\
       (forall K' s', In K' (components self) -> K' < K ->
                      bic_try self K' = Ok s' -> leb s' s = false) /\
       SelectorBIC_select self = Ok (base_model self K)) \/
   ((forall K s, In K (components self) -> bic_try self K = Ok s ->
                 ltb s inf = false) /\
    SelectorBIC_select self = Ok (base_model self 0))) /\
  (forall K s,
      bic_minimal self K s -> ltb s inf = true ->
      SelectorBIC_select self = Ok (base_model self K)).
Proof.
  split; [exact (bic_try_formula self)|].
  unfold SelectorBIC_select.
  destruct (bic_search_spec self)
    as [(K & s & HK & Hs & Hb & E & Hmin & Hfirst) | [E Hno]]; rewrite E.
  - split; [left; exists K, s; repeat split; auto|].
    intros K0 s0 (HK0 & Hs0 & Hmin0 & Hfirst0) Hb0; cbn [snd].
    destruct (Z.lt_trichotomy K0 K) as [Hlt|[->|Hlt]]; [| reflexivity |].
    + pose proof (Hfirst _ _ HK0 Hlt Hs0) as H1.
      rewrite (Hmin0 _ _ HK Hs) in H1; discriminate.
    + pose proof (Hfirst0 _ _ HK Hlt Hs) as H1.
      rewrite (Hmin _ _ HK0 Hs0) in H1; discriminate.
  - split; [right; split; auto|].
    intros K0 s0 (HK0 & Hs0 & _) Hb0.
    rewrite (Hno _ _ HK0 Hs0) in Hb0; discriminate.
Qed.

(** *** DIC *)

Lemma dic_search_scan (self : ModelSelector) :
  dic_search self =
  scan gtb (map (fun n => (n, succeeded (dic_try self n))) (components self))
       (neg_inf, 0).
Proof.
  apply fold_left_scan; intros st n.
  unfold dic_step, keep_best; simpl.
  destruct (dic_try self n); reflexivity.
Qed.

Lemma dic_search_spec (self : ModelSelector) :
  (exists K s,
      In K (components self) /\ dic_try self K = Ok s /\ gtb s neg_inf = true /\
      dic_search self = (s, K) /\
      (forall K' s', In K' (components self) -> dic_try self K' = Ok s' ->
                     gtb s' s = false) /\
      (forall K' s', In K' (components self) -> K' < K ->
                     dic_try self K' = Ok s' -> geb s' s = false)) \/
  (dic_search self = (neg_inf, 0) /\
   forall K s, In K (components self) -> dic_try self K = Ok s ->
               gtb s neg_inf = false).
Proof.
  rewrite dic_search_scan; unfold components.
  destruct (scan_range_max (fun n => succeeded (dic_try self n))
              (min_n_components self) (max_n_components self + 1) (neg_inf, 0))
    as [(K & s & HK & Hs & Hb & E & Hmin & Hfirst) | [E Hno]].
  - left; exists K, s; apply succeeded_Some in Hs; repeat split; auto.
    + intros K' s' HK' Hs'; apply (Hmin K'); [|apply succeeded_Some]; auto.
    + intros K' s' HK' Hlt Hs'; apply (Hfirst K'); [| |apply succeeded_Some]; auto.
  - right; split; [assumption|].
    intros K s HK Hs; apply (Hno K); [|apply succeeded_Some]; auto.
Qed.

Lemma dict_get_In {V : Type} (d : dict V) (k : string) (v : V) :
  NoDup (keys d) -> In (k, v) d -> dict_get d k = Ok v.
Proof.
  induction d as [|[k' v'] d IH]; intros Hnd Hin; [destruct Hin|].
  simpl in *; inversion Hnd as [|? ? Hk' Hnd']; subst.
  destruct Hin as [E|Hin].
  - injection E as -> ->; rewrite String.eqb_refl; reflexivity.
  - destruct (String.eqb_spec k' k) as [->|_]; [|auto].
    exfalso; apply Hk'; apply in_map_iff; exists (k, v); auto.
Qed.

(** The inner loop adds up the scores on the other words. *)
Lemma dic_others_sum (self : ModelSelector) (m : model) (ws : dict Xlengths)
    (total : float) :
  NoDup (keys (hwords self)) ->
  (forall e, In e ws -> In e (hwords self)) ->
  dic_others self (Some m) (keys ws) total =
  sum_scores m
    (values (filter (fun e => negb (String.eqb (fst e) (this_word self))) ws))
    total.
Proof.
  intros Hnd; revert total; induction ws as [|[w [Xw lw]] ws IH];
    intros total Hin; [reflexivity|].
  cbn [keys values map fst filter dic_others].
  destruct (negb (String.eqb w (this_word self))).
  - rewrite (@dict_get_In Xlengths (hwords self) w (Xw, lw) Hnd)
      by (apply Hin; left; reflexivity).
    cbn [bind score values map snd sum_scores].
    destruct (hmm_score m Xw lw); cbn [bind]; [|reflexivity].
    apply IH; intros e He; apply Hin; right; assumption.
  - apply IH; intros e He; apply Hin; right; assumption.
Qed.

Lemma truediv_Ok (x : float) (d : Z) (q : float) :
  truediv x d = Ok q <->
  d <> 0 /\ exists fd, float_of_int d = Ok fd /\ q = div x fd.
Proof.
  unfold truediv; destruct (Z.eqb_spec d 0) as [->|Hd].
  - split; [discriminate | intros [H _]; contradiction].
  - destruct (float_of_int d) as [fd|e]; cbn [bind]; split.
    + intros E; injection E as <-; split; [assumption|]; exists fd; auto.
    + intros (_ & fd' & E & ->); injection E as <-; reflexivity.
    + discriminate.
    + intros (_ & fd' & E & _); discriminate.
Qed.

(** The score of a number of states is the likelihood of the selector's own
    data minus the mean likelihood of the data of the other words. *)
Lemma dic_try_formula (self : ModelSelector) (K : Z) (s : float) :
  NoDup (keys (hwords self)) ->
  dic_try self K = Ok s <->
  exists m logL anti_logL count,
    base_model self K = Some m /\
    hmm_score m (X self) (lengths self) = Ok logL /\
    sum_scores m (values (other_words self)) zero = Ok anti_logL /\
    len (hwords self) - 1 <> 0 /\
    float_of_int (len (hwords self) - 1) = Ok count /\
    s = sub logL (div anti_logL count).
Proof.
  intros Hnd; unfold dic_try.
  destruct (base_model self K) as [m|] eqn:Em; cbn [score bind];
    [|split; [discriminate | intros (? & ? & ? & ? & ? & _); discriminate]].
  destruct (hmm_score m (X self) (lengths self)) as [logL|e] eqn:El; cbn [bind];
    [|split; [discriminate|];
      intros (m' & ? & ? & ? & Em' & El' & _); congruence].
  rewrite (dic_others_sum self m (hwords self) zero Hnd) by auto.
  fold (other_words self).
  destruct (sum_scores m (values (other_words self)) zero) as [anti|e] eqn:Ea;
    cbn [bind];
    [|split; [discriminate|];
      intros (m' & ? & ? & ? & Em' & _ & Ea' & _); congruence].
  destruct (truediv anti (len (hwords self) - 1)) as [mean|e] eqn:Ed; cbn [bind].
  - apply truediv_Ok in Ed as (Hd & fd & Efd & ->); split.
    + intros E; injection E as <-.
      exists m, logL, anti, fd; repeat split; auto.
    + intros (m' & logL' & anti' & fd' & Em' & El' & Ea' & _ & Efd' & ->).
      congruence.
  - split; [discriminate|].
    intros (m' & logL' & anti' & fd' & Em' & El' & Ea' & Hd & Efd' & _).
    assert (E : truediv anti (len (hwords self) - 1) = Ok (div anti fd')).
    { apply truediv_Ok; split; [assumption|]; exists fd'; auto. }
    congruence.
Qed.

(** C4 (amended).  With the keys of the corpus distinct, for every number
    of states [K] for which training and scoring succeed, the DIC score is
    the likelihood of the selector's own data minus the sum of the
    likelihoods of the data of every other word divided by the number of
    words minus 1.  The selector returns the model retrained for the
    smallest [K] whose score is above [neg_inf] and is highest among the
    successful ones (a score that is [neg_inf] or NaN is never chosen), and
    the model of 0 states when no score is above [neg_inf].  In particular
    it returns the model of the [K] of highest score as soon as that score
    is above [neg_inf]. *)
Theorem SelectorDIC_select_maximal (self : ModelSelector) :
  NoDup (keys (hwords self)) ->
  (forall K s,
      dic_try self K = Ok s <->
      exists m logL anti_logL count,
        base_model self K = Some m /\
        hmm_score m (X self) (lengths self) = Ok logL /\
        sum_scores m (values (other_words self)) zero = Ok anti_logL /\
        len (hwords self) - 1 <> 0 /\
        float_of_int (len (hwords self) - 1) = Ok count /\
        s = sub logL (div anti_logL count)) /\
  ((exists K s,
       In K (components self) /\ dic_try self K = Ok s /\ gtb s neg_inf = true /\
       (forall K' s', In K' (components self) -> dic_try self K' = Ok s' ->
                      gtb s' s = false) /\
       (forall K' s', In K' (components self) -> K' < K ->
                      dic_try self K' = Ok s' -> geb s' s = false) /\
       SelectorDIC_select self = Ok (base_model self K)) \/
   ((forall K s, In K (components self) -> dic_try self K = Ok s ->
                 gtb s neg_inf = false) /\
    SelectorDIC_select self = Ok (base_model self 0))) /\
  (forall K s,
      dic_maximal self K s -> gtb s neg_inf = true ->
      SelectorDIC_select self = Ok (base_model self K)).
Proof.
  intros Hnd.
  split; [intros K s; apply dic_try_formula; assumption|].
  unfold SelectorDIC_select.
  destruct (dic_search_spec self)
    as [(K & s & HK & Hs & Hb & E & Hmax & Hfirst) | [E Hno]]; rewrite E.
  - split; [left; exists K, s; repeat split; auto|].
    intros K0 s0 (HK0 & Hs0 & Hmax0 & Hfirst0) Hb0; cbn [snd].
    destruct (Z.lt_trichotomy K0 K) as [Hlt|[->|Hlt]]; [| reflexivity |].
    + pose proof (Hfirst _ _ HK0 Hlt Hs0) as H1; unfold geb in H1.
      rewrite (Hmax0 _ _ HK Hs) in H1; discriminate.
    + pose proof (Hfirst0 _ _ HK Hlt Hs) as H1.
      pose proof (Hmax _ _ HK0 Hs0) as H2; unfold gtb in H2.
      rewrite H1 in H2; discriminate.
  - split; [right; split; auto|].
    intros K0 s0 (HK0 & Hs0 & _) Hb0.
    rewrite (Hno _ _ HK0 Hs0) in Hb0; discriminate.
Qed.

(** A search none of whose turns succeeds leaves the initial state. *)
Lemma dic_search_all_raise (self : ModelSelector) :
  (forall K, exists e, dic_try self K = Raise e) ->
  dic_search self = (neg_inf, 0).
Proof.
  intros Hall; unfold dic_search.
  generalize (neg_inf, 0); induction (components self) as [|K ks IH];
    intros st; [reflexivity|].
  cbn [fold_left]; unfold dic_step at 2.
  destruct (Hall K) as [e ->]; apply IH.
Qed.

Lemma ModelSelector_init_fields (all_word_sequences : dict (list array))
    (all_word_Xlengths : dict Xlengths) (word : string)
    (n_const min_n max_n seed : Z) (verb : bool) (self : ModelSelector) :
  ModelSelector_init all_word_sequences all_word_Xlengths word
                     n_const min_n max_n seed verb = Ok self ->
  hwords self = all_word_Xlengths /\ this_word self = word /\
  dict_get all_word_Xlengths word = Ok (X self, lengths self) /\
  dict_get all_word_sequences word = Ok (sequences self).
Proof.
  unfold ModelSelector_init.
  destruct (dict_get all_word_sequences word) as [sq|]; [|discriminate].
  destruct (dict_get all_word_Xlengths word) as [[Xw lw]|]; [|discriminate].
  cbn [bind]; intros E; injection E as <-; repeat split.
Qed.

(** C5.  When the corpus has exactly one category, every turn of the DIC
    search raises inside its [try] (the division of the [int] 0 by 0 where
    the model could be trained and scored), no exception reaches the
    caller, and [select] returns its default, the outcome of fitting 0
    states: [None] when that fitting fails. *)
Theorem SelectorDIC_select_single_category
    (all_word_sequences : dict (list array))
    (all_word_Xlengths : dict Xlengths) (word : string)
    (n_const min_n max_n seed : Z) (verb : bool) (self : ModelSelector) :
  ModelSelector_init all_word_sequences all_word_Xlengths word
                     n_const min_n max_n seed verb = Ok self ->
  List.length all_word_Xlengths = 1%nat ->
  (forall K m logL,
      base_model self K = Some m ->
      hmm_score m (X self) (lengths self) = Ok logL ->
      dic_try self K = Raise ZeroDivisionError) /\
  (forall K, exists e, dic_try self K = Raise e) /\
  SelectorDIC_select self = Ok (base_model self 0) /\
  (forall e,
      GaussianHMM_fit 0 (random_state self) (X self) (lengths self) = Raise e ->
      SelectorDIC_select self = Ok None).
Proof.
  intros Hinit Hlen.
  destruct (ModelSelector_init_fields _ _ _ _ _ _ _ _ _ Hinit)
    as (Hh & Hw & HX & _).
  destruct all_word_Xlengths as [|[w xl] [|? ?]]; try discriminate.
  simpl in HX; destruct (String.eqb_spec w word) as [->|]; [|discriminate].
  assert (Hzero : forall K m logL,
             base_model self K = Some m ->
             hmm_score m (X self) (lengths self) = Ok logL ->
             dic_try self K = Raise ZeroDivisionError).
  { intros K m logL Em El; unfold dic_try.
    rewrite Em; cbn [score]; rewrite El, Hh; cbn [bind keys map fst dic_others].
    rewrite Hw, String.eqb_refl; reflexivity. }
  assert (Hall : forall K, exists e, dic_try self K = Raise e).
  { intros K; destruct (base_model self K) as [m|] eqn:Em.
    - destruct (hmm_score m (X self) (lengths self)) as [logL|e] eqn:El.
      + exists ZeroDivisionError; eauto.
      + exists e; unfold dic_try; rewrite Em; cbn [score]; rewrite El; reflexivity.
    - exists AttributeError; unfold dic_try; rewrite Em; reflexivity. }
  assert (Hsel : SelectorDIC_select self = Ok (base_model self 0)).
  { unfold SelectorDIC_select; rewrite (dic_search_all_raise self Hall).
    reflexivity. }
  repeat split; auto.
  intros e He; rewrite Hsel; unfold base_model; rewrite He; reflexivity.
Qed.

(** When no number of states of the range can be trained and scored, the
    BIC and DIC selectors return their default, the outcome of fitting 0
    states. *)
Lemma select_no_success_default (self : ModelSelector) :
  ((forall K, In K (components self) -> exists e, bic_try self K = Raise e) ->
   SelectorBIC_select self = Ok (base_model self 0)) /\
  ((forall K, In K (components self) -> exists e, dic_try self K = Raise e) ->
   SelectorDIC_select self = Ok (base_model self 0)).
Proof.
  split; intros Hall.
  - unfold SelectorBIC_select.
    destruct (bic_search_spec self) as [(K & s & HK & Hs & _) | [-> _]];
      [|reflexivity].
    destruct (Hall K HK) as [e He]; congruence.
  - unfold SelectorDIC_select.
    destruct (dic_search_spec self) as [(K & s & HK & Hs & _) | [-> _]];
      [|reflexivity].
    destruct (Hall K HK) as [e He]; congruence.
Qed.

(** *** Cross-validation *)

Lemma cv_try_unsplit (self : ModelSelector) (K : Z) (g : rng) :
  len (sequences self) < 2 ->
  cv_try self K g = (score (base_model self K) (X self) (lengths self), g).
Proof.
  intros Hlen; unfold cv_try, cv_folds.
  destruct (Z.ltb_spec (Z.min 3 (len (sequences self))) 2); [reflexivity|lia].
Qed.

Lemma cv_search_unsplit (self : ModelSelector) (g : rng) :
  len (sequences self) < 2 ->
  cv_search self g =
  (scan gtb (map (fun n => (n, Some (unsplit_score self n))) (components self))
        (neg_inf, 0), g).
Proof.
  intros Hlen; unfold cv_search, scan.
  generalize (neg_inf, 0); induction (components self) as [|K ks IH];
    intros best; [reflexivity|].
  cbn [fold_left map]; rewrite <- IH; f_equal.
  unfold cv_step; rewrite (cv_try_unsplit self K g Hlen).
  unfold keep_best, unsplit_score; cbn [snd fst].
  destruct (score (base_model self K) (X self) (lengths self));
    destruct (gtb _ (fst best)); reflexivity.
Qed.

(** The cross-validation selector uses [min(3, number of sequences)]
    folds.  With fewer than 2 sequences it makes no split and does not
    consult the generator: the body of each turn is the score, on the full
    data, of the model trained on the full data.  When no turn raises, that
    is when every number of states of the range can be trained and scored,
    and some score is above [neg_inf], it returns the model of a number of
    states of highest score. *)
Theorem SelectorCV_select_unsplit (self : ModelSelector) (g : rng) :
  cv_folds self = Z.min 3 (len (sequences self)) /\
  (len (sequences self) < 2 ->
   (forall K g', cv_try self K g'
                 = (score (base_model self K) (X self) (lengths self), g')) /\
   snd (SelectorCV_select self g) = g /\
   ((forall K, In K (components self) ->
               exists m s, base_model self K = Some m /\
                           hmm_score m (X self) (lengths self) = Ok s) ->
    (exists K m s, In K (components self) /\ base_model self K = Some m /\
                   hmm_score m (X self) (lengths self) = Ok s /\
                   gtb s neg_inf = true) ->
    exists K m s,
      In K (components self) /\ base_model self K = Some m /\
      hmm_score m (X self) (lengths self) = Ok s /\
      (forall K' m' s', In K' (components self) -> base_model self K' = Some m' ->
                        hmm_score m' (X self) (lengths self) = Ok s' ->
                        gtb s' s = false) /\
      fst (SelectorCV_select self g) = Ok (Some m))).
Proof.
  split; [reflexivity|]; intros Hlen.
  split; [intros K g'; apply cv_try_unsplit; assumption|].
  unfold SelectorCV_select; rewrite (cv_search_unsplit self g Hlen).
  split; [reflexivity|]; intros Hall (K1 & m1 & s1 & HK1 & Em1 & Es1 & Hb1).
  assert (Hscore : forall K m s, base_model self K = Some m ->
                     hmm_score m (X self) (lengths self) = Ok s ->
                     unsplit_score self K = s).
  { intros K m s Em Es; unfold unsplit_score; rewrite Em; cbn [score].
    rewrite Es; reflexivity. }
  unfold components in *.
  destruct (scan_range_max (fun n => Some (unsplit_score self n))
              (min_n_components self) (max_n_components self + 1) (neg_inf, 0))
    as [(K & s & HK & Hs & Hb & E & Hmax & _) | [_ Hno]].
  - rewrite E; cbn [fst snd].
    destruct (Hall K HK) as (m & s0 & Em & Es).
    injection Hs as Hs; rewrite (Hscore _ _ _ Em Es) in Hs; subst s0.
    exists K, m, s; repeat split; auto.
    + intros K' m' s' HK' Em' Es'; apply (Hmax K' s' HK').
      rewrite (Hscore _ _ _ Em' Es'); reflexivity.
    + rewrite Em; reflexivity.
  - cbn [fst] in Hno.
    rewrite (Hno K1 s1 HK1) in Hb1; [discriminate|].
    rewrite (Hscore _ _ _ Em1 Es1); reflexivity.
Qed.

(** The total of the scores of the folds, when all of them succeed. *)
Lemma cv_total_Forall2 (self : ModelSelector) (K : Z)
    (splits : list (list nat * list nat)) (scores : list float) (total : float) :
  Forall2 (fun split s => cv_fold self K split = Ok s) splits scores ->
  cv_total self K splits total = Ok (fold_left add scores total).
Proof.
  intros H; revert total; induction H as [|split s splits scores Hs _ IH];
    intros total; [reflexivity|].
  cbn [cv_total fold_left]; rewrite Hs; cbn [bind]; apply IH.
Qed.

(** A fold that fails ends the loop over the folds with its exception. *)
Lemma cv_total_raise (self : ModelSelector) (K : Z)
    (done : list (list nat * list nat)) (split : list nat * list nat)
    (rest : list (list nat * list nat)) (e : exn) (total : float) :
  (forall sp, In sp done -> exists s, cv_fold self K sp = Ok s) ->
  cv_fold self K split = Raise e ->
  cv_total self K (done ++ split :: rest) total = Raise e.
Proof.
  revert total; induction done as [|sp done IH]; intros total Hdone He.
  - cbn [app cv_total]; rewrite He; reflexivity.
  - cbn [app cv_total]; destruct (Hdone sp) as [s ->]; [left; reflexivity|].
    cbn [bind]; apply IH; [|assumption].
    intros sp' Hsp'; apply Hdone; right; assumption.
Qed.

Lemma cv_folds_cases (self : ModelSelector) :
  2 <= cv_folds self -> cv_folds self = 2 \/ cv_folds self = 3.
Proof. unfold cv_folds; lia. Qed.

Lemma cv_try_split (self : ModelSelector) (K : Z) (g : rng) :
  2 <= cv_folds self ->
  fst (cv_try self K g) =
  (total_score <-
     cv_total self K
       (fst (KFold_split (cv_folds self) (List.length (sequences self)) g)) zero ;;
   truediv total_score (cv_folds self)).
Proof.
  intros H2; unfold cv_try.
  destruct (Z.ltb_spec (cv_folds self) 2); [lia|].
  destruct (KFold_split (cv_folds self) (List.length (sequences self)) g);
    reflexivity.
Qed.

(** C2 (amended).  In the cross-validation selector with at least 2 folds,
    a failure of training or scoring on one fold of a number of states [K]
    ends the evaluation of [K] with that exception: the scores of the
    earlier folds of [K] are dropped and no average is formed for [K].  A
    [K] all of whose folds succeed has for candidate score the sum of the
    scores of its folds divided by the number of folds.  In both cases the
    search goes on and [select] returns without raising. *)
Theorem SelectorCV_fold_failure (self : ModelSelector) (K : Z) (g : rng) :
  2 <= cv_folds self ->
  (forall done split rest e,
      fst (KFold_split (cv_folds self) (List.length (sequences self)) g)
      = done ++ split :: rest ->
      (forall sp, In sp done -> exists s, cv_fold self K sp = Ok s) ->
      cv_fold self K split = Raise e ->
      fst (cv_try self K g) = Raise e) /\
  (forall scores,
      Forall2 (fun split s => cv_fold self K split = Ok s)
        (fst (KFold_split (cv_folds self) (List.length (sequences self)) g))
        scores ->
      fst (cv_try self K g)
      = Ok (div (fold_left add scores zero) (of_Z (cv_folds self)))) /\
  (exists r g', SelectorCV_select self g = (Ok r, g')).
Proof.
  intros H2; split; [|split].
  - intros done split rest e Esplits Hdone He.
    rewrite (cv_try_split self K g H2), Esplits.
    rewrite (cv_total_raise self K done split rest e zero Hdone He).
    reflexivity.
  - intros scores Hall.
    rewrite (cv_try_split self K g H2).
    rewrite (cv_total_Forall2 self K _ scores zero Hall); cbn [bind].
    destruct (cv_folds_cases self H2) as [-> | ->]; reflexivity.
  - unfold SelectorCV_select; destruct (cv_search self g) as [best g'].
    eexists _, _; reflexivity.
Qed.

(** *** Determinism *)

Lemma cv_search_same_drawn (self : ModelSelector) (ks : list Z)
    (best : float * Z) (g1 g2 : rng) :
  (2 <= cv_folds self -> cv_drawn self ks g1 = cv_drawn self ks g2) ->
  fst (fold_left (cv_step self) ks (best, g1))
  = fst (fold_left (cv_step self) ks (best, g2)).
Proof.
  revert best g1 g2; induction ks as [|K ks IH]; intros best g1 g2 Hdrawn;
    [reflexivity|].
  cbn [fold_left]; unfold cv_step at 2 4; unfold cv_try.
  destruct (Z.ltb_spec (cv_folds self) 2) as [Hlt|Hge].
  - destruct (gtb _ (fst best)); apply IH; intros H2; lia.
  - specialize (Hdrawn Hge); cbn [cv_drawn] in Hdrawn.
    destruct (KFold_split (cv_folds self) (List.length (sequences self)) g1)
      as [splits1 g1'].
    destruct (KFold_split (cv_folds self) (List.length (sequences self)) g2)
      as [splits2 g2'].
    injection Hdrawn as -> Hdrawn.
    destruct (gtb _ (fst best)); apply IH; intros _; assumption.
Qed.

(** C8 (amended).  Two runs of the [select] of any selector on the same
    selector object, started in two states of the random generator, choose
    the same number of states and return the same model, provided that, for
    the cross-validation selector on a category of at least 2 sequences,
    both runs draw the same fold partitions. *)
Theorem select_deterministic (cls : selector) (self : ModelSelector) (g1 g2 : rng) :
  (cls = SelectorCV -> 2 <= len (sequences self) ->
   cv_drawn self (components self) g1 = cv_drawn self (components self) g2) ->
  chosen_n_components cls self g1 = chosen_n_components cls self g2 /\
  fst (select cls self g1) = fst (select cls self g2).
Proof.
  intros Hdrawn; destruct cls; try (split; reflexivity).
  assert (E : fst (cv_search self g1) = fst (cv_search self g2)).
  { apply cv_search_same_drawn; intros H2; apply Hdrawn; [reflexivity|].
    unfold cv_folds in H2; lia. }
  cbn [chosen_n_components select]; unfold SelectorCV_select.
  destruct (cv_search self g1) as [b1 g1'], (cv_search self g2) as [b2 g2'].
  cbn [fst] in *; subst b2; split; reflexivity.
Qed.

End SelectorFacts.

(** ** The recognizer *)

Lemma dict_set_keys {V : Type} (d : dict V) (k : string) (v : V) (w : string) :
  In w (keys (dict_set d k v)) -> w = k \/ In w (keys d).
Proof.
  induction d as [|[k' v'] d IH]; simpl.
  - intros [<-|[]]; auto.
  - destruct (String.eqb_spec k' k) as [->|_]; simpl; intuition.
Qed.

Lemma dict_set_length {V : Type} (d : dict V) (k : string) (v : V) :
  (List.length (dict_set d k v) <= S (List.length d))%nat.
Proof.
  induction d as [|[k' v'] d IH]; simpl; [lia|].
  destruct (String.eqb k' k); simpl; lia.
Qed.

Lemma dict_set_fresh {V : Type} (d : dict V) (k : string) (v : V) :
  ~ In k (keys d) -> dict_set d k v = d ++ [(k, v)].
Proof.
  induction d as [|[k' v'] d IH]; simpl; intros Hk; [reflexivity|].
  destruct (String.eqb_spec k' k) as [->|_]; [exfalso; auto|].
  rewrite IH; auto.
Qed.

(** Two places of one list: the first is before the second, or they are
    the same place, or the second is before the first. *)
Lemma app_cons_cases {A : Type} (l1 l2 l1' l2' : list A) (x y : A) :
  l1 ++ x :: l2 = l1' ++ y :: l2' ->
  (In x l1' /\ In y l2) \/ (x = y /\ l1 = l1' /\ l2 = l2') \/
  (In x l2' /\ In y l1).
Proof.
  revert l1'; induction l1 as [|a l1 IH]; intros [|a' l1'] E;
    simpl in E; injection E as <- E.
  - right; left; auto.
  - left; split; [left; reflexivity | rewrite E; apply in_elt].
  - right; right; split; [rewrite <- E; apply in_elt | left; reflexivity].
  - destruct (IH _ E) as [[Hx Hy] | [(-> & -> & ->) | [Hx Hy]]].
    + left; split; [right|]; assumption.
    + right; left; auto.
    + right; right; split; [|right]; assumption.
Qed.

Section RecognizerFacts.
Context {L : Library}.
Variables (X_test : array) (lengths_test : list nat).

Lemma recognize_fold (models : dict (option model)) (d : dict float)
    (best : float * option string) :
  fold_left (recognize_step X_test lengths_test) models (d, best)
  = (record_scores X_test lengths_test models d, scan gtb (candidates X_test lengths_test models) best).
Proof.
  revert d best; induction models as [|[w m] models IH]; intros d best;
    [reflexivity|].
  cbn [fold_left record_scores candidates map scan];
    fold (candidates X_test lengths_test models).
  unfold recognize_step at 2; destruct best as [best_score guess].
  unfold keep_best; cbn [fst snd].
  destruct (score m X_test lengths_test) as [s|e]; cbn [succeeded].
  - destruct (gtb s best_score); apply IH.
  - apply IH.
Qed.

Lemma recognize_item_fold (models : dict (option model)) :
  recognize_item models (X_test, lengths_test)
  = (record_scores X_test lengths_test models [], snd (scan gtb (candidates X_test lengths_test models) (neg_inf, None))).
Proof.
  unfold recognize_item; rewrite recognize_fold.
  destruct (scan gtb (candidates X_test lengths_test models) (neg_inf, None)); reflexivity.
Qed.

Lemma scored_In (models : dict (option model)) (w : string) (s : float) :
  In (w, s) (scored models X_test lengths_test) <->
  exists m, In (w, m) models /\ score m X_test lengths_test = Ok s.
Proof.
  induction models as [|[w' m'] models IH]; cbn [scored].
  - split; [intros [] | intros (m & [] & _)].
  - destruct (score m' X_test lengths_test) as [s'|e] eqn:Es.
    + split.
      * intros [E|Hin].
        -- injection E as -> ->; exists m'; split; [left; reflexivity|assumption].
        -- apply IH in Hin as (m & Hm & Hs); exists m; split; [right|]; auto.
      * intros (m & [E|Hm] & Hs).
        -- injection E as -> ->; left; congruence.
        -- right; apply IH; eauto.
    + rewrite IH; split.
      * intros (m & Hm & Hs); exists m; split; [right|]; auto.
      * intros (m & [E|Hm] & Hs); [injection E as -> ->; congruence|eauto].
Qed.

Lemma scored_app (m1 m2 : dict (option model)) :
  scored (m1 ++ m2) X_test lengths_test
  = scored m1 X_test lengths_test ++ scored m2 X_test lengths_test.
Proof.
  induction m1 as [|[w m] m1 IH]; [reflexivity|].
  cbn [app scored]; destruct (score m X_test lengths_test); rewrite IH;
    reflexivity.
Qed.

Lemma record_scores_scored (models : dict (option model)) (d : dict float) :
  NoDup (keys models) ->
  (forall w, In w (keys models) -> ~ In w (keys d)) ->
  record_scores X_test lengths_test models d = d ++ scored models X_test lengths_test.
Proof.
  revert d; induction models as [|[w m] models IH]; intros d Hnd Hfresh.
  - cbn; rewrite app_nil_r; reflexivity.
  - inversion Hnd as [|? ? Hw Hnd']; subst.
    cbn [record_scores fold_left scored fst snd].
    destruct (score m X_test lengths_test) as [s|e].
    + rewrite dict_set_fresh by (apply Hfresh; left; reflexivity).
      fold (record_scores X_test lengths_test models (d ++ [(w, s)])).
      rewrite IH, <- app_assoc; [reflexivity|assumption|].
      intros w' Hw' Hin; unfold keys in Hin; rewrite map_app in Hin.
      apply in_app_or in Hin as [Hin|[<-|[]]].
      * apply (Hfresh w'); [right|]; assumption.
      * contradiction.
    + apply IH; [assumption|].
      intros w' Hw'; apply Hfresh; right; assumption.
Qed.

Lemma record_scores_bounds (models : dict (option model)) (d : dict float) :
  (List.length (record_scores X_test lengths_test models d) <= List.length d + List.length models)%nat /\
  forall w, In w (keys (record_scores X_test lengths_test models d)) ->
            In w (keys d) \/ In w (keys models).
Proof.
  revert d; induction models as [|[w m] models IH]; intros d.
  - cbn; split; [lia|auto].
  - cbn [record_scores fold_left fst snd].
    destruct (score m X_test lengths_test) as [s|e].
    + fold (record_scores X_test lengths_test models (dict_set d w s)).
      destruct (IH (dict_set d w s)) as [Hlen Hkeys].
      pose proof (dict_set_length d w s); split; [simpl; lia|].
      intros w' Hw'; destruct (Hkeys w' Hw') as [Hin|Hin].
      * apply dict_set_keys in Hin as [->|Hin]; [right; left; reflexivity|auto].
      * right; right; assumption.
    + fold (record_scores X_test lengths_test models d).
      destruct (IH d) as [Hlen Hkeys]; split; [simpl; lia|].
      intros w' Hw'; destruct (Hkeys w' Hw'); [auto|right; right; assumption].
Qed.

(** The running maximum of the loop: the first category of greatest score
    above [neg_inf], or no category. *)
Lemma guess_spec (models : dict (option model)) :
  (exists m1 w m s m2,
      models = m1 ++ (w, m) :: m2 /\ score m X_test lengths_test = Ok s /\
      gtb s neg_inf = true /\
      (forall w' s', In (w', s') (scored m1 X_test lengths_test) -> geb s' s = false) /\
      (forall w' s', In (w', s') (scored m2 X_test lengths_test) -> gtb s' s = false) /\
      scan gtb (candidates X_test lengths_test models) (neg_inf, None) = (s, Some w)) \/
  ((forall w s, In (w, s) (scored models X_test lengths_test) ->
                gtb s neg_inf = false) /\
   scan gtb (candidates X_test lengths_test models) (neg_inf, None) = (neg_inf, None)).
Proof.
  assert (Hcand : forall ms w' s',
             In (w', s') (scored ms X_test lengths_test) ->
             In (Some w', Some s') (candidates X_test lengths_test ms)).
  { intros ms w' s' Hin; apply scored_In in Hin as (m & Hm & Hs).
    apply in_map_iff; exists (w', m); cbn [fst snd]; rewrite Hs; auto. }
  destruct (scan_spec gtb geb FloatOrder.ltb_irrefl
              (fun x y z Hxy Hyz => FloatOrder.ltb_trans z y x Hyz Hxy)
              (fun x y z Hxy Hyz => FloatOrder.ltb_leb_trans z y x Hyz Hxy)
              (fun x y => FloatOrder.ltb_leb y x)
              (candidates X_test lengths_test models) (neg_inf, None))
    as [[E Hno] | (c1 & k & s & c2 & Ec & E & Hb & H1 & H2)].
  - right; split; [|assumption].
    intros w s Hin; exact (Hno _ _ (Hcand _ _ _ Hin)).
  - left; unfold candidates in Ec.
    apply map_eq_app in Ec as (m1 & m2' & -> & E1 & E2).
    apply map_eq_cons in E2 as ([w m] & m2 & -> & Ek & E2).
    cbn [fst snd] in Ek; injection Ek as <- Hs; apply succeeded_Some in Hs.
    subst c1 c2; exists m1, w, m, s, m2; repeat split; auto.
    + intros w' s' Hin; exact (H1 _ _ (Hcand _ _ _ Hin)).
    + intros w' s' Hin; exact (H2 _ _ (Hcand _ _ _ Hin)).
Qed.

End RecognizerFacts.

Section RecognizeFacts.
Context {L : Library}.

Lemma recognize_map (models : dict (option model)) (test_set : SinglesData) :
  recognize models test_set
  = (map (fun t => fst (recognize_item models t)) (values test_set),
     map (fun t => snd (recognize_item models t)) (values test_set)).
Proof.
  unfold recognize, get_all_Xlengths.
  assert (H : forall ts P G,
             fold_left
               (fun '(probabilities, guesses) t =>
                  let '(word_probabilities, guess) := recognize_item models t in
                  (probabilities ++ [word_probabilities], guesses ++ [guess]))
               ts (P, G)
             = (P ++ map (fun t => fst (recognize_item models t)) ts,
                G ++ map (fun t => snd (recognize_item models t)) ts)).
  { induction ts as [|t ts IH]; intros P G.
    - cbn; rewrite !app_nil_r; reflexivity.
    - cbn [fold_left map]; destruct (recognize_item models t) as [d g].
      rewrite IH, <- !app_assoc; reflexivity. }
  apply (H (values test_set) [] []).
Qed.

(** C7 (amended).  With the keys of the model map distinct, the score map
    of a test item holds the score of a category exactly when the model of
    that category scored the item, in the order of the model map; a
    category whose scoring fails is left out and takes no part in the
    maximum.  The guess is the first category of greatest score whenever
    some recorded score is above [neg_inf] (a score that is [neg_inf] or NaN
    is recorded and never becomes the guess), and it is [None] otherwise, in
    particular when no category scored the item. *)
Theorem recognize_item_argmax (models : dict (option model))
    (X_test : array) (lengths_test : list nat) :
  NoDup (keys models) ->
  fst (recognize_item models (X_test, lengths_test))
  = scored models X_test lengths_test /\
  (forall w s,
      In (w, s) (fst (recognize_item models (X_test, lengths_test))) <->
      exists m, In (w, m) models /\ score m X_test lengths_test = Ok s) /\
  ((exists before w s after,
       scored models X_test lengths_test = before ++ (w, s) :: after /\
       gtb s neg_inf = true /\
       (forall w' s', In (w', s') before -> geb s' s = false) /\
       (forall w' s', In (w', s') after -> gtb s' s = false) /\
       snd (recognize_item models (X_test, lengths_test)) = Some w) \/
   ((forall w s, In (w, s) (scored models X_test lengths_test) ->
                 gtb s neg_inf = false) /\
    snd (recognize_item models (X_test, lengths_test)) = None)) /\
  (scored models X_test lengths_test = [] ->
   snd (recognize_item models (X_test, lengths_test)) = None) /\
  (forall w s,
      is_argmax (scored models X_test lengths_test) w s ->
      gtb s neg_inf = true ->
      snd (recognize_item models (X_test, lengths_test)) = Some w).
Proof.
  intros Hnd; rewrite recognize_item_fold; cbn [fst snd].
  assert (Hrec : record_scores X_test lengths_test models []
                 = scored models X_test lengths_test).
  { rewrite record_scores_scored; auto. }
  rewrite Hrec.
  assert (Hguess :
    (exists before w s after,
        scored models X_test lengths_test = before ++ (w, s) :: after /\
        gtb s neg_inf = true /\
        (forall w' s', In (w', s') before -> geb s' s = false) /\
        (forall w' s', In (w', s') after -> gtb s' s = false) /\
        snd (scan gtb (candidates X_test lengths_test models) (neg_inf, None))
        = Some w) \/
    ((forall w s, In (w, s) (scored models X_test lengths_test) ->
                  gtb s neg_inf = false) /\
     snd (scan gtb (candidates X_test lengths_test models) (neg_inf, None))
     = None)).
  { destruct (guess_spec X_test lengths_test models)
      as [(m1 & w & m & s & m2 & -> & Hs & Hb & H1 & H2 & ->) | [Hno ->]];
      [left | right; split; auto].
    exists (scored m1 X_test lengths_test), w, s,
           (scored m2 X_test lengths_test); repeat split; auto.
    rewrite scored_app; cbn [scored]; rewrite Hs; reflexivity. }
  repeat split; auto.
  - apply scored_In.
  - apply scored_In.
  - intros Hempty.
    destruct Hguess as [(before & w & s & after & E & _) | [_ E]]; [|assumption].
    rewrite Hempty in E; destruct before; discriminate.
  - intros w s (before & after & E & Hbefore & Hafter) Hb.
    destruct Hguess as [(before' & w' & s' & after' & E' & _ & H1 & H2 & ->)
                       | [Hno _]].
    + rewrite E in E'.
      destruct (app_cons_cases _ _ _ _ _ _ E')
        as [[Hin Hin'] | [(Heq & _ & _) | [Hin Hin']]].
      * pose proof (H1 _ _ Hin) as Hge; unfold geb in Hge.
        rewrite (Hafter _ _ Hin') in Hge; discriminate.
      * injection Heq as -> ->; reflexivity.
      * pose proof (H2 _ _ Hin) as Hgt; unfold gtb in Hgt.
        rewrite (Hbefore _ _ Hin') in Hgt; discriminate.
    + rewrite (Hno w s) in Hb; [discriminate|].
      rewrite E; apply in_elt.
Qed.

(** C3.  For a model map of M categories and a test set of N items,
    [recognize] returns N score maps and N guesses, the i-th ones being
    those of the i-th test sequence; every guess is a key of the model map
    or [None], and every score map has at most M keys, all of them keys of
    the model map. *)
Theorem recognize_shape (models : dict (option model)) (test_set : SinglesData) :
  List.length (fst (recognize models test_set)) = List.length test_set /\
  List.length (snd (recognize models test_set)) = List.length test_set /\
  (forall i t,
      nth_error (values (get_all_Xlengths test_set)) i = Some t ->
      nth_error (fst (recognize models test_set)) i
      = Some (fst (recognize_item models t)) /\
      nth_error (snd (recognize models test_set)) i
      = Some (snd (recognize_item models t))) /\
  (forall guess,
      In guess (snd (recognize models test_set)) ->
      guess = None \/ exists w, guess = Some w /\ In w (keys models)) /\
  (forall word_probabilities,
      In word_probabilities (fst (recognize models test_set)) ->
      (List.length word_probabilities <= List.length models)%nat /\
      forall w, In w (keys word_probabilities) -> In w (keys models)).
Proof.
  rewrite recognize_map; cbn [fst snd]; unfold values, get_all_Xlengths.
  repeat split.
  - rewrite !length_map; reflexivity.
  - rewrite !length_map; reflexivity.
  - rewrite nth_error_map, H; reflexivity.
  - rewrite nth_error_map, H; reflexivity.
  - intros guess Hin; apply in_map_iff in Hin as ([Xt lt] & <- & _).
    rewrite recognize_item_fold; cbn [snd].
    destruct (guess_spec Xt lt models)
      as [(m1 & w & m & s & m2 & -> & _ & _ & _ & _ & ->) | [_ ->]];
      [right | left; reflexivity].
    exists w; split; [reflexivity|].
    unfold keys; rewrite map_app; apply in_or_app; right; left; reflexivity.
  - apply in_map_iff in H as ([Xt lt] & <- & _).
    rewrite recognize_item_fold; cbn [fst].
    apply (record_scores_bounds Xt lt models []).
  - apply in_map_iff in H as ([Xt lt] & <- & _).
    rewrite recognize_item_fold; cbn [fst]; intros w Hw.
    destruct (proj2 (record_scores_bounds Xt lt models []) w Hw) as [[]|]; auto.
Qed.

End RecognizeFacts.

(** C10.  The guess of a test item is [None] exactly when no category
    scores the item above [neg_inf].  Hence, with the keys of the model map
    distinct, a category whose model gives the item the score [neg_inf] is
    recorded in the score map and is not the guess, and the score map can be
    non-empty while the guess is [None]. *)
Theorem recognize_item_no_guess :
  (forall (L : Library) (models : dict (option model)) (X_test : array)
          (lengths_test : list nat),
      snd (recognize_item models (X_test, lengths_test)) = None <->
      forall w m s, In (w, m) models -> score m X_test lengths_test = Ok s ->
                    gtb s neg_inf = false) /\
  (forall (L : Library) (models : dict (option model)) (X_test : array)
          (lengths_test : list nat) (w : string) (m : option model),
      NoDup (keys models) -> In (w, m) models ->
      score m X_test lengths_test = Ok neg_inf ->
      In (w, neg_inf) (fst (recognize_item models (X_test, lengths_test))) /\
      snd (recognize_item models (X_test, lengths_test)) <> Some w) /\
  (exists (L : Library) (models : dict (option model)) (t : Xlengths),
      fst (recognize_item models t) <> [] /\
      snd (recognize_item models t) = None).
Proof.
  split; [|split].
  - intros L models X_test lengths_test; rewrite recognize_item_fold; cbn [snd].
    destruct (guess_spec X_test lengths_test models)
      as [(m1 & w & m & s & m2 & -> & Hs & Hb & _ & _ & ->) | [Hno ->]];
      cbn [snd]; split; try discriminate; try reflexivity.
    + intros Hall; rewrite (Hall w m s) in Hb; [discriminate| |assumption].
      apply in_elt.
    + intros _ w m s Hin Hs; apply (Hno w); apply scored_In; eauto.
  - intros L models X_test lengths_test w m Hnd Hin Hs.
    rewrite recognize_item_fold; cbn [fst snd].
    rewrite record_scores_scored by auto; cbn [app]; split.
    + apply scored_In; eauto.
    + destruct (guess_spec X_test lengths_test models)
        as [(m1 & w' & m' & s' & m2 & E & Hs' & Hb & _ & _ & ->) | [_ ->]];
        cbn [snd]; [|discriminate].
      intros Hw; injection Hw as ->.
      assert (Hin' : In (w, m') models) by (rewrite E; apply in_elt).
      pose proof (dict_get_In models w m Hnd Hin) as G.
      rewrite (dict_get_In models w m' Hnd Hin') in G; injection G as ->.
      rewrite Hs in Hs'; injection Hs' as <-; discriminate.
  - exists impossible_library, [("CAT"%string, Some (2, [5%nat]))],
           (rows 1, [1%nat]).
    split; [discriminate | reflexivity].
Qed.

(** ** Examples *)

Ltac in_components H :=
  vm_compute in H;
  repeat (destruct H as [<-|H]; [|try contradiction]).

(** Evaluates the score of a hypothesis [E : _ = Ok s] and replaces [s]. *)
Ltac eval_score E :=
  vm_compute in E; try discriminate; injection E as <-.

(** With 15 rows of dimension 2, likelihood -100 at 2 states and -95 at 3,
    and no model of 4 states, the penalty makes 2 states win. *)
Lemma SelectorBIC_select_penalty :
  SelectorBIC_select (L := bic_library) cat_selector
  = Ok (Some (2, [5; 6; 4]%nat)).
Proof.
  refine (proj2 (proj2 (SelectorBIC_select_minimal (L := bic_library)
                          cat_selector))
            2 (S754_finite false 8084965922785381 (-45)) _ _).
  - unfold bic_minimal; split; [|split; [|split]].
    + vm_compute; auto.
    + reflexivity.
    + intros K' s' HK' E; in_components HK'; eval_score E; reflexivity.
    + intros K' s' HK' Hlt; in_components HK'; lia.
  - reflexivity.
Defined.

(** A model whose likelihood on its own data is [neg_inf] has the BIC score
    [inf]: it is minimal among the successful numbers of states, and yet the
    selector retrains with 0 states, which fails. *)
Lemma SelectorBIC_select_inf_counterexample :
  bic_minimal (L := impossible_library) cat_selector 2 inf /\
  base_model (L := impossible_library) cat_selector 2 = Some (2, [5; 6; 4]%nat) /\
  SelectorBIC_select (L := impossible_library) cat_selector = Ok None.
Proof.
  split; [|split; reflexivity].
  unfold bic_minimal; split; [|split; [|split]].
  - vm_compute; auto.
  - reflexivity.
  - intros K' s' HK' E; in_components HK'; eval_score E; reflexivity.
  - intros K' s' HK' Hlt; in_components HK'; lia.
Qed.

Lemma corpus_keys_NoDup : NoDup (keys (hwords cat_selector)).
Proof.
  repeat constructor; simpl; intuition discriminate.
Qed.

(** With likelihoods -100, -90, -80 on CAT and -150, -200, -100 on the
    other word, the DIC scores are 50, 110 and 20: 3 states win. *)
Lemma SelectorDIC_select_discriminates :
  SelectorDIC_select (L := dic_library) cat_selector
  = Ok (Some (3, [5; 6; 4]%nat)).
Proof.
  refine (proj2 (proj2 (SelectorDIC_select_maximal (L := dic_library)
                          cat_selector corpus_keys_NoDup))
            3 (of_Z 110) _ _).
  - unfold dic_maximal; split; [|split; [|split]].
    + vm_compute; auto.
    + reflexivity.
    + intros K' s' HK' E; in_components HK'; eval_score E; reflexivity.
    + intros K' s' HK' Hlt E; in_components HK'; try lia.
      eval_score E; reflexivity.
  - reflexivity.
Defined.

(** A model that gives its own data the likelihood [neg_inf] has the DIC
    score [neg_inf]: it is the highest among the successful numbers of
    states, and yet the selector retrains with 0 states, which fails. *)
Lemma SelectorDIC_select_neg_inf_counterexample :
  NoDup (keys (hwords cat_selector)) /\
  dic_maximal (L := unfit_library) cat_selector 2 neg_inf /\
  base_model (L := unfit_library) cat_selector 2 = Some (2, [5; 6; 4]%nat) /\
  SelectorDIC_select (L := unfit_library) cat_selector = Ok None.
Proof.
  split; [exact corpus_keys_NoDup|].
  split; [|split; reflexivity].
  unfold dic_maximal; split; [|split; [|split]].
  - vm_compute; auto.
  - reflexivity.
  - intros K' s' HK' E; in_components HK'; eval_score E; reflexivity.
  - intros K' s' HK' Hlt; in_components HK'; lia.
Qed.

(** The selector of the only word of a corpus, under a library that can
    train and score every positive number of states. *)
Lemma SelectorDIC_select_lone_word :
  ModelSelector_init cat_corpus (hwords lone_selector) "CAT" 3 2 10 14 false
  = Ok lone_selector /\
  dic_try (L := dic_library) lone_selector 2 = Raise ZeroDivisionError /\
  SelectorDIC_select (L := dic_library) lone_selector = Ok None.
Proof.
  pose proof (SelectorDIC_select_single_category (L := dic_library)
                cat_corpus (hwords lone_selector) "CAT" 3 2 10 14 false
                lone_selector eq_refl eq_refl) as (Hzero & _ & _ & Hnone).
  split; [reflexivity|]; split.
  - exact (Hzero 2 (2, [5; 6; 4]%nat) (of_Z (-100)) eq_refl eq_refl).
  - exact (Hnone LibraryError eq_refl).
Defined.

(** A category of one sequence: no split is made, and the selector returns
    the model of the number of states of highest score. *)
Lemma SelectorCV_select_solo :
  exists K m s,
    In K (components solo_selector) /\
    base_model (L := dic_library) solo_selector K = Some m /\
    hmm_score (Library := dic_library) m (X solo_selector) (lengths solo_selector)
    = Ok s /\
    (forall K' m' s',
        In K' (components solo_selector) ->
        base_model (L := dic_library) solo_selector K' = Some m' ->
        hmm_score (Library := dic_library) m' (X solo_selector)
                  (lengths solo_selector) = Ok s' ->
        gtb s' s = false) /\
    fst (SelectorCV_select (L := dic_library) solo_selector 0%nat) = Ok (Some m).
Proof.
  apply (proj2 (SelectorCV_select_unsplit (L := dic_library) solo_selector 0%nat)).
  - reflexivity.
  - intros K HK; in_components HK; eexists _, _; split; reflexivity.
  - exists 2, (2, [5%nat]), (of_Z (-150)); repeat split.
    vm_compute; auto.
Defined.

(** C6.  A category of one sequence, searched over 2 and 3 states: no
    split is made, the model of 2 states is trained and scores -150 on the
    full data, and the model of 3 states cannot be fitted.  The failed turn
    of 3 states leaves [ave_score] at 0, which beats -150: the selector
    settles on 3 states and returns [None], although 2 states are viable. *)
Lemma SelectorCV_select_viable_lost :
  len (sequences solo_selector) = 1 /\
  cv_folds solo_selector = 1 /\
  base_model (L := third_fails_library) solo_selector 2 = Some (2, [5%nat]) /\
  fst (cv_try (L := third_fails_library) solo_selector 2 0%nat)
  = Ok (of_Z (-150)) /\
  base_model (L := third_fails_library) solo_selector 3 = None /\
  fst (cv_try (L := third_fails_library) solo_selector 3 0%nat)
  = Raise AttributeError /\
  cv_search (L := third_fails_library) solo_selector 0%nat = (zero, 3, 0%nat) /\
  SelectorCV_select (L := third_fails_library) solo_selector 0%nat
  = (Ok None, 0%nat).
Proof. repeat split. Qed.

(** A category of one sequence whose model cannot be fitted for any number
    of states: the selector returns no model. *)
Lemma SelectorCV_select_solo_unfittable :
  len (sequences solo_selector) = 1 /\
  cv_folds solo_selector = 1 /\
  SelectorCV_select (L := failing_library) solo_selector 0%nat = (Ok None, 0%nat).
Proof. repeat split. Qed.

(** With 2 states the first fold scores -10 and the second cannot be
    fitted: the evaluation of 2 states ends with the exception. *)
Lemma SelectorCV_fold_failure_partial :
  fst (cv_try (L := partial_library) pair_selector 2 0%nat) = Raise LibraryError.
Proof.
  refine (proj1 (SelectorCV_fold_failure (L := partial_library)
                   pair_selector 2 0%nat _)
            [([1%nat], [0%nat])] ([0%nat], [1%nat]) [] LibraryError
            eq_refl _ eq_refl).
  - vm_compute; discriminate.
  - intros sp [<-|[]]; eexists; reflexivity.
Defined.

(** The score -10 of the first fold of 2 states is dropped when its second
    fold fails, and 2 states are chosen with the score 0 over 3 states,
    whose folds average -3; the same happens when every fold of 2 states
    fails. *)
Lemma SelectorCV_fold_failure_counterexample :
  (cv_fold (L := partial_library) pair_selector 2 ([1%nat], [0%nat])
   = Ok (of_Z (-10)) /\
   cv_fold (L := partial_library) pair_selector 2 ([0%nat], [1%nat])
   = Raise LibraryError /\
   fst (cv_try (L := partial_library) pair_selector 3 1%nat) = Ok (of_Z (-3)) /\
   cv_search (L := partial_library) pair_selector 0%nat = (zero, 2, 2%nat)) /\
  ((forall sp, In sp (two_folds 0) ->
               cv_fold (L := starved_library) pair_selector 2 sp
               = Raise LibraryError) /\
   fst (cv_try (L := starved_library) pair_selector 3 1%nat) = Ok (of_Z (-3)) /\
   cv_search (L := starved_library) pair_selector 0%nat = (zero, 2, 2%nat)).
Proof.
  split; repeat split.
  intros sp [<-|[<-|[]]]; reflexivity.
Qed.

(** Four sequences in three folds: started in its states 2 and 3 the
    generator gives the same partitions for the two numbers of states, and
    the two runs choose the same number of states. *)
Lemma select_deterministic_quad :
  chosen_n_components (L := shuffle_library) SelectorCV quad_selector 2%nat
  = chosen_n_components (L := shuffle_library) SelectorCV quad_selector 3%nat /\
  fst (select (L := shuffle_library) SelectorCV quad_selector 2%nat)
  = fst (select (L := shuffle_library) SelectorCV quad_selector 3%nat).
Proof.
  apply (select_deterministic (L := shuffle_library) SelectorCV quad_selector
           2%nat 3%nat).
  intros _ _; reflexivity.
Defined.

(** Two runs of the cross-validation selector in a row, on the same
    selector: the generator has moved on, the second run draws other folds
    and chooses another number of states. *)
Lemma SelectorCV_select_twice_counterexample :
  chosen_n_components (L := shuffle_library) SelectorCV quad_selector 0%nat = 2 /\
  chosen_n_components (L := shuffle_library) SelectorCV quad_selector
    (snd (SelectorCV_select (L := shuffle_library) quad_selector 0%nat)) = 3 /\
  fst (SelectorCV_select (L := shuffle_library) quad_selector 0%nat)
  = Ok (Some (2, [1; 2; 3; 4]%nat)) /\
  fst (SelectorCV_select (L := shuffle_library) quad_selector
         (snd (SelectorCV_select (L := shuffle_library) quad_selector 0%nat)))
  = Ok (Some (3, [1; 2; 3; 4]%nat)).
Proof. repeat split. Qed.

(** C9.  A category of two sequences under a library that cannot fit a
    model on a single sequence: for every number of states every fold
    fails, so that no number of states has a successful training and
    scoring, and yet the cross-validation selector returns a fitted model,
    that of the first number of states of the range trained on the whole
    data. *)
Lemma SelectorCV_select_unvalidated :
  (forall K sp,
      In K (components pair_selector) -> In sp (two_folds 0) ->
      cv_fold (L := foldless_library) pair_selector K sp = Raise LibraryError) /\
  (forall K g,
      In K (components pair_selector) ->
      fst (cv_try (L := foldless_library) pair_selector K g) = Raise LibraryError) /\
  SelectorCV_select (L := foldless_library) pair_selector 0%nat
  = (Ok (Some (2, [1; 2]%nat)), 2%nat).
Proof.
  repeat split.
  - intros K sp HK Hsp; in_components HK;
      destruct Hsp as [<-|[<-|[]]]; reflexivity.
  - intros K g HK; in_components HK; reflexivity.
Qed.

Lemma two_models_NoDup : NoDup (keys two_models).
Proof.
  repeat constructor; simpl; intuition discriminate.
Qed.

(** A test item that the model of CAT scores -20 and the model of DOG -30
    is guessed to be CAT. *)
Lemma recognize_item_cat :
  snd (recognize_item (L := recognizer_library) two_models (rows 4, [4%nat]))
  = Some "CAT"%string.
Proof.
  refine (proj2 (proj2 (proj2 (proj2
            (recognize_item_argmax (L := recognizer_library) two_models
               (rows 4) [4%nat] two_models_NoDup))))
            "CAT"%string (of_Z (-20)) _ eq_refl).
  exists [], [("DOG"%string, of_Z (-30))]; repeat split.
  - intros w' s' [].
  - intros w' s' [E|[]]; injection E as <- <-; reflexivity.
Defined.

(** Both categories give the test item the score [neg_inf]: both scores are
    recorded, CAT is the first category of greatest score, and the guess is
    [None]. *)
Lemma recognize_item_neg_inf_counterexample :
  NoDup (keys two_models) /\
  fst (recognize_item (L := impossible_library) two_models (rows 4, [4%nat]))
  = [("CAT"%string, neg_inf); ("DOG"%string, neg_inf)] /\
  is_argmax (scored (L := impossible_library) two_models (rows 4) [4%nat])
            "CAT" neg_inf /\
  snd (recognize_item (L := impossible_library) two_models (rows 4, [4%nat]))
  = None.
Proof.
  split; [exact two_models_NoDup|]; repeat split.
  exists [], [("DOG"%string, neg_inf)]; repeat split.
  - intros w' s' [].
  - intros w' s' [E|[]]; injection E as <- <-; reflexivity.
Qed.

(** Two test items against the models of CAT and DOG. *)
Example recognize_two_items :
  recognize (L := recognizer_library) two_models test_items
  = ([[("CAT"%string, of_Z (-20)); ("DOG"%string, of_Z (-30))];
      [("CAT"%string, of_Z (-20)); ("DOG"%string, of_Z (-30))]],
     [Some "CAT"%string; Some "CAT"%string]).
Proof. reflexivity. Qed.

(** * Further properties of the selectors *)

Lemma dict_get_missing {V : Type} (d : dict V) (k : string) :
  dict_get d k = Raise KeyError <-> ~ In k (keys d).
Proof.
  induction d as [|[k' v] d IH]; simpl.
  - split; [intros _ [] | reflexivity].
  - destruct (String.eqb_spec k' k) as [->|Hne].
    + split; [discriminate | intros H; exfalso; apply H; left; reflexivity].
    + rewrite IH; split; [intros H [E|Hin]; auto | intros H Hin; apply H; auto].
Qed.

Lemma dict_get_raises {V : Type} (d : dict V) (k : string) (e : exn) :
  dict_get d k = Raise e -> e = KeyError.
Proof.
  induction d as [|[k' v] d IH]; simpl; [congruence|].
  destruct (String.eqb k' k); [discriminate | assumption].
Qed.

Lemma dict_get_found {V : Type} (d : dict V) (k : string) :
  In k (keys d) -> exists v, dict_get d k = Ok v.
Proof.
  induction d as [|[k' v] d IH]; simpl; [intros []|].
  destruct (String.eqb_spec k' k) as [->|Hne]; [eauto|].
  intros [E|Hin]; [contradiction | auto].
Qed.

Lemma dict_get_key {V : Type} (d : dict V) (k : string) (v : V) :
  dict_get d k = Ok v -> In k (keys d).
Proof.
  induction d as [|[k' v'] d IH]; simpl; [discriminate|].
  destruct (String.eqb_spec k' k) as [->|_]; [left; reflexivity | auto].
Qed.

(** X1.  [ModelSelector.__init__] raises [KeyError], and nothing else,
    exactly when the word is missing from the sequences or from the
    concatenated data; otherwise the selector holds the sequences and the
    data of its word, the two dictionaries and the settings as given. *)
Theorem ModelSelector_init_spec (all_word_sequences : dict (list array))
    (all_word_Xlengths : dict Xlengths) (word : string)
    (n_const min_n max_n seed : Z) (verb : bool) :
  (forall self,
      ModelSelector_init all_word_sequences all_word_Xlengths word
                         n_const min_n max_n seed verb = Ok self ->
      dict_get all_word_sequences word = Ok (sequences self) /\
      dict_get all_word_Xlengths word = Ok (X self, lengths self) /\
      words self = all_word_sequences /\ hwords self = all_word_Xlengths /\
      this_word self = word /\ In (this_word self) (keys (hwords self)) /\
      n_constant self = n_const /\ min_n_components self = min_n /\
      max_n_components self = max_n /\ random_state self = seed) /\
  ((exists e,
       ModelSelector_init all_word_sequences all_word_Xlengths word
                          n_const min_n max_n seed verb = Raise e) <->
   ~ In word (keys all_word_sequences) \/ ~ In word (keys all_word_Xlengths)) /\
  (forall e,
      ModelSelector_init all_word_sequences all_word_Xlengths word
                         n_const min_n max_n seed verb = Raise e ->
      e = KeyError).
Proof.
  unfold ModelSelector_init.
  destruct (dict_get all_word_sequences word) as [sq|e1] eqn:E1; cbn [bind].
  - destruct (dict_get all_word_Xlengths word) as [[Xw lw]|e2] eqn:E2; cbn [bind].
    + split; [|split].
      * intros self E; injection E as <-; cbn; repeat split.
        apply (dict_get_key _ _ _ E2).
      * split; [intros [e E]; discriminate|].
        apply dict_get_key in E1, E2; tauto.
      * discriminate.
    + pose proof (dict_get_raises _ _ _ E2); subst e2.
      split; [discriminate|]; split; [|congruence].
      split; [|eauto]; intros _; right; apply dict_get_missing; assumption.
  - pose proof (dict_get_raises _ _ _ E1); subst e1.
    split; [discriminate|]; split; [|congruence].
    split; [|eauto]; intros _; left; apply dict_get_missing; assumption.
Qed.

Lemma range_sorted (a b : Z) : StronglySorted Z.lt (range a b).
Proof.
  unfold range; generalize (Z.to_nat (b - a)) as n, 0%nat as s.
  induction n as [|n IH]; intros s; cbn [seq map]; constructor; [apply IH|].
  apply Forall_forall; intros x Hx.
  apply in_map_iff in Hx as (i & <- & Hi); apply in_seq in Hi; lia.
Qed.

(** X2.  The three searches try exactly the numbers of states from
    [min_n_components] to [max_n_components], both included, each once and
    in increasing order. *)
Theorem components_inclusive (self : ModelSelector) :
  (forall K, In K (components self) <->
             min_n_components self <= K <= max_n_components self) /\
  StronglySorted Z.lt (components self) /\
  List.length (components self)
  = Z.to_nat (max_n_components self - min_n_components self + 1).
Proof.
  unfold components; split; [|split].
  - intros K; unfold range; rewrite in_map_iff; split.
    + intros (i & <- & Hi); apply in_seq in Hi; lia.
    + intros H; exists (Z.to_nat (K - min_n_components self)); split; [lia|].
      apply in_seq; lia.
  - apply range_sorted.
  - unfold range; rewrite length_map, length_seq; f_equal; lia.
Qed.

Section FurtherSelectorFacts.
Context {L : Library}.

(** X3.  When [max_n_components] is below [min_n_components] no number of
    states is tried: the three searching selectors return the outcome of
    fitting 0 states, and the cross-validation selector leaves the
    generator as it is. *)
Theorem select_empty_range (self : ModelSelector) (g : rng) :
  max_n_components self < min_n_components self ->
  SelectorBIC_select self = Ok (base_model self 0) /\
  SelectorDIC_select self = Ok (base_model self 0) /\
  SelectorCV_select self g = (Ok (base_model self 0), g).
Proof.
  intros Hlt.
  assert (E : components self = []).
  { unfold components, range.
    replace (Z.to_nat (max_n_components self + 1 - min_n_components self))
      with 0%nat by lia.
    reflexivity. }
  unfold SelectorBIC_select, SelectorDIC_select, SelectorCV_select,
    bic_search, dic_search, cv_search.
  rewrite E; repeat split.
Qed.

(** X4.  When the concatenated data of the word has no row, every turn of
    the BIC search raises (reading the first row fails where the scoring did
    not), and the selector returns the outcome of fitting 0 states. *)
Theorem SelectorBIC_select_no_rows (self : ModelSelector) :
  X self = [] ->
  (forall K, exists e, bic_try self K = Raise e) /\
  (forall K m logL,
      base_model self K = Some m ->
      hmm_score m (X self) (lengths self) = Ok logL ->
      bic_try self K = Raise IndexError) /\
  SelectorBIC_select self = Ok (base_model self 0).
Proof.
  intros HX.
  assert (Hidx : forall K m logL,
             base_model self K = Some m ->
             hmm_score m (X self) (lengths self) = Ok logL ->
             bic_try self K = Raise IndexError).
  { intros K m logL Em El; unfold bic_try; rewrite Em; cbn [score].
    rewrite El, HX; reflexivity. }
  assert (Hall : forall K, exists e, bic_try self K = Raise e).
  { intros K; destruct (base_model self K) as [m|] eqn:Em.
    - destruct (hmm_score m (X self) (lengths self)) as [logL|e] eqn:El;
        [eauto|].
      exists e; unfold bic_try; rewrite Em; cbn [score]; rewrite El; reflexivity.
    - exists AttributeError; unfold bic_try; rewrite Em; reflexivity. }
  repeat split; auto.
  apply (proj1 (select_no_success_default self)); auto.
Qed.

Lemma bic_try_trained (self : ModelSelector) (K : Z) (s : float) :
  bic_try self K = Ok s -> exists m, base_model self K = Some m.
Proof.
  unfold bic_try; destruct (base_model self K) as [m|]; [eauto|discriminate].
Qed.

Lemma dic_try_trained (self : ModelSelector) (K : Z) (s : float) :
  dic_try self K = Ok s -> exists m, base_model self K = Some m.
Proof.
  unfold dic_try; destruct (base_model self K) as [m|]; [eauto|discriminate].
Qed.

Lemma base_model_fit (self : ModelSelector) (K : Z) (m : model) :
  base_model self K = Some m ->
  GaussianHMM_fit K (random_state self) (X self) (lengths self) = Ok m.
Proof. apply succeeded_Some. Qed.

Lemma in_components (self : ModelSelector) (K : Z) :
  In K (components self) ->
  min_n_components self <= K <= max_n_components self.
Proof. apply components_inclusive. Qed.

(** X5.  As soon as one number of states of the range has a BIC score
    below [inf], the BIC selector returns a fitted model and not [None]: the
    model fitted on the data of the word with the chosen number of states,
    which lies in the range and was trained and scored during the search. *)
Theorem SelectorBIC_select_returns_model (self : ModelSelector) :
  (exists K s, In K (components self) /\ bic_try self K = Ok s /\
               ltb s inf = true) ->
  exists K m s,
    min_n_components self <= K <= max_n_components self /\
    bic_search self = (s, K) /\ bic_try self K = Ok s /\
    GaussianHMM_fit K (random_state self) (X self) (lengths self) = Ok m /\
    SelectorBIC_select self = Ok (Some m).
Proof.
  intros (K0 & s0 & HK0 & Hs0 & Hb0).
  destruct (bic_search_spec self)
    as [(K & s & HK & Hs & _ & E & _) | [_ Hno]].
  - destruct (bic_try_trained self K s Hs) as [m Em].
    exists K, m, s; repeat split; auto; try (apply in_components; assumption).
    + apply base_model_fit; assumption.
    + unfold SelectorBIC_select; rewrite E; cbn [snd]; rewrite Em; reflexivity.
  - rewrite (Hno _ _ HK0 Hs0) in Hb0; discriminate.
Qed.

(** X6.  As soon as one number of states of the range has a DIC score
    above [neg_inf], the DIC selector returns a fitted model and not [None]:
    the model fitted on the data of the word with the chosen number of
    states, which lies in the range and was trained and scored during the
    search. *)
Theorem SelectorDIC_select_returns_model (self : ModelSelector) :
  (exists K s, In K (components self) /\ dic_try self K = Ok s /\
               gtb s neg_inf = true) ->
  exists K m s,
    min_n_components self <= K <= max_n_components self /\
    dic_search self = (s, K) /\ dic_try self K = Ok s /\
    GaussianHMM_fit K (random_state self) (X self) (lengths self) = Ok m /\
    SelectorDIC_select self = Ok (Some m).
Proof.
  intros (K0 & s0 & HK0 & Hs0 & Hb0).
  destruct (dic_search_spec self)
    as [(K & s & HK & Hs & _ & E & _) | [_ Hno]].
  - destruct (dic_try_trained self K s Hs) as [m Em].
    exists K, m, s; repeat split; auto; try (apply in_components; assumption).
    + apply base_model_fit; assumption.
    + unfold SelectorDIC_select; rewrite E; cbn [snd]; rewrite Em; reflexivity.
  - rewrite (Hno _ _ HK0 Hs0) in Hb0; discriminate.
Qed.

Lemma sum_scores_raise (m : model) (data : list Xlengths) (Xw : array)
    (lw : list nat) (e : exn) (total : float) :
  In (Xw, lw) data -> hmm_score m Xw lw = Raise e ->
  exists e', sum_scores m data total = Raise e'.
Proof.
  revert total; induction data as [|[X0 l0] data IH]; intros total Hin He;
    [destruct Hin|].
  cbn [sum_scores]; destruct Hin as [E|Hin].
  - injection E as -> ->; rewrite He; cbn [bind]; eauto.
  - destruct (hmm_score m X0 l0); cbn [bind]; eauto.
Qed.

(** X7.  In the DIC search, a model that cannot score the data of one of
    the other words makes the turn of its number of states raise; that
    number of states is then not chosen, unless it is the default 0. *)
Theorem dic_try_other_word_failure (self : ModelSelector) (K : Z) (m : model)
    (w : string) (Xw : array) (lw : list nat) (e : exn) :
  NoDup (keys (hwords self)) ->
  base_model self K = Some m ->
  In (w, (Xw, lw)) (hwords self) -> w <> this_word self ->
  hmm_score m Xw lw = Raise e ->
  (exists e', dic_try self K = Raise e') /\
  (K <> 0 -> snd (dic_search self) <> K).
Proof.
  intros Hnd Em Hin Hw He.
  assert (Hraise : exists e', dic_try self K = Raise e').
  { unfold dic_try; rewrite Em; cbn [score].
    destruct (hmm_score m (X self) (lengths self)) as [logL|e0]; cbn [bind];
      [|eauto].
    rewrite (dic_others_sum self m (hwords self) zero Hnd) by auto.
    destruct (sum_scores_raise m
                (values (filter (fun e => negb (String.eqb (fst e) (this_word self)))
                                (hwords self)))
                Xw lw e zero) as [e' ->]; [|assumption|cbn [bind]; eauto].
    apply in_map_iff; exists (w, (Xw, lw)); split; [reflexivity|].
    apply filter_In; split; [assumption|]; cbn [fst].
    destruct (String.eqb_spec w (this_word self)); [contradiction|reflexivity]. }
  split; [assumption|]; intros HK0.
  destruct Hraise as [e' He'].
  destruct (dic_search_spec self)
    as [(K' & s & _ & Hs & _ & -> & _) | [-> _]]; cbn [snd]; [|auto].
  intros ->; congruence.
Qed.

Lemma cv_try_draw (self : ModelSelector) (K : Z) (g : rng) :
  2 <= cv_folds self ->
  snd (cv_try self K g)
  = snd (KFold_split (cv_folds self) (List.length (sequences self)) g).
Proof.
  intros H2; unfold cv_try.
  destruct (Z.ltb_spec (cv_folds self) 2); [lia|].
  destruct (KFold_split (cv_folds self) (List.length (sequences self)) g);
    reflexivity.
Qed.

Lemma cv_step_draw (self : ModelSelector) (st : float * Z * rng) (K : Z) :
  snd (cv_step self st K) = snd (cv_try self K (snd st)).
Proof.
  unfold cv_step; destruct st as [best g]; cbn [snd].
  destruct (cv_try self K g) as [r g'].
  destruct (gtb _ (fst best)); reflexivity.
Qed.

(** X8.  With at least 2 folds the cross-validation selector shuffles the
    folds once for every number of states of the range, whether the folds
    of that number of states fail or not: the generator it leaves behind is
    the one after that many shuffles. *)
Theorem SelectorCV_select_draws (self : ModelSelector) (g : rng) :
  2 <= cv_folds self ->
  snd (SelectorCV_select self g) = cv_draws self (components self) g.
Proof.
  intros H2; unfold SelectorCV_select.
  destruct (cv_search self g) as [best g'] eqn:E; cbn [snd].
  replace g' with (snd (cv_search self g)) by (rewrite E; reflexivity).
  clear E; unfold cv_search, cv_draws.
  generalize (neg_inf, 0); revert g.
  induction (components self) as [|K ks IH]; intros g best0; [reflexivity|].
  cbn [fold_left].
  destruct (cv_step self (best0, g) K) as [best1 g1] eqn:E1.
  rewrite IH; f_equal.
  replace g1 with (snd (cv_step self (best0, g) K)) by (rewrite E1; reflexivity).
  rewrite cv_step_draw; cbn [snd]; apply cv_try_draw; assumption.
Qed.

Lemma cv_step_floored (self : ModelSelector) (ks : list Z) (best : float * Z)
    (g : rng) (K : Z) :
  In K ks -> floored ks best -> floored ks (fst (cv_step self (best, g) K)).
Proof.
  intros HK (Hfloor & Hinf & Hin); unfold cv_step.
  destruct (cv_try self K g) as [r g'].
  set (ave := match r with Ok s => s | Raise _ => zero end).
  destruct (gtb ave (fst best)) eqn:Hgt; cbn [fst]; [|repeat split; assumption].
  repeat split; cbn [fst snd]; [| |assumption].
  - destruct (ltb ave zero) eqn:Hlt; [|reflexivity].
    unfold gtb in Hgt.
    rewrite (FloatOrder.ltb_trans _ _ _ Hgt Hlt) in Hfloor; discriminate.
  - unfold gtb in *; exact (FloatOrder.ltb_trans _ _ _ Hinf Hgt).
Qed.

Lemma cv_search_floored (self : ModelSelector) (ks l : list Z)
    (best : float * Z) (g : rng) :
  incl l ks -> floored ks best ->
  floored ks (fst (fold_left (cv_step self) l (best, g))).
Proof.
  revert best g; induction l as [|K l IH]; intros best g Hincl Hfl;
    [assumption|].
  cbn [fold_left].
  destruct (cv_step self (best, g) K) as [best1 g1] eqn:E1.
  apply IH; [intros x Hx; apply Hincl; right; assumption|].
  replace best1 with (fst (cv_step self (best, g) K)) by (rewrite E1; reflexivity).
  apply cv_step_floored; [apply Hincl; left; reflexivity | assumption].
Qed.

Lemma cv_search_started (self : ModelSelector) (ks l : list Z)
    (best : float * Z) (g : rng) :
  incl l ks -> started ks best ->
  started ks (fst (fold_left (cv_step self) l (best, g))).
Proof.
  revert best g; induction l as [|K l IH]; intros best g Hincl Hst;
    [assumption|].
  cbn [fold_left].
  destruct (cv_step self (best, g) K) as [best1 g1] eqn:E1.
  apply IH; [intros x Hx; apply Hincl; right; assumption|].
  replace best1 with (fst (cv_step self (best, g) K)) by (rewrite E1; reflexivity).
  clear E1; unfold cv_step.
  destruct (cv_try self K g) as [r g'].
  destruct (gtb _ (fst best)) eqn:Hgt; cbn [fst]; [|assumption].
  right; cbn [fst snd]; split; [|apply Hincl; left; reflexivity].
  destruct Hst as [-> | [Hinf _]]; [assumption|].
  unfold gtb in *; exact (FloatOrder.ltb_trans _ _ _ Hinf Hgt).
Qed.

(** X9.  In the cross-validation search, once the evaluation of one number
    of states of the range raises, whatever the folds drawn, the search ends
    with a best score that is above [neg_inf] and not below 0, held by a
    number of states of the range, and [select] returns the outcome of
    fitting that number of states on the full data. *)
Theorem cv_search_failed_candidate (self : ModelSelector) (K0 : Z) (g : rng) :
  In K0 (components self) ->
  (forall g', exists e, fst (cv_try self K0 g') = Raise e) ->
  ltb (fst (fst (cv_search self g))) zero = false /\
  gtb (fst (fst (cv_search self g))) neg_inf = true /\
  In (snd (fst (cv_search self g))) (components self) /\
  fst (SelectorCV_select self g)
  = Ok (base_model self (snd (fst (cv_search self g)))).
Proof.
  intros HK0 Hfail.
  assert (Hsel : fst (SelectorCV_select self g)
                 = Ok (base_model self (snd (fst (cv_search self g))))).
  { unfold SelectorCV_select; destruct (cv_search self g); reflexivity. }
  cut (ltb (fst (fst (cv_search self g))) zero = false /\
       gtb (fst (fst (cv_search self g))) neg_inf = true /\
       In (snd (fst (cv_search self g))) (components self));
    [intuition|].
  clear Hsel; unfold cv_search.
  destruct (in_split _ _ HK0) as (pre & post & E).
  assert (Hpre : incl pre (components self)).
  { rewrite E; intros x Hx; apply in_or_app; left; assumption. }
  assert (Hpost : incl post (components self)).
  { rewrite E; intros x Hx; apply in_or_app; right; right; assumption. }
  assert (H : floored (components self)
                (fst (fold_left (cv_step self) (pre ++ K0 :: post)
                        (neg_inf, 0, g)))).
  { rewrite fold_left_app; cbn [fold_left].
    pose proof (cv_search_started self (components self) pre (neg_inf, 0) g
                  Hpre (or_introl eq_refl)) as Hst.
    destruct (fold_left (cv_step self) pre (neg_inf, 0, g)) as [best1 g1].
    cbn [fst] in Hst.
    destruct (cv_step self (best1, g1) K0) as [best2 g2] eqn:E2.
    apply (cv_search_floored self (components self) post best2 g2 Hpost).
    replace best2 with (fst (cv_step self (best1, g1) K0))
      by (rewrite E2; reflexivity).
    clear E2; unfold cv_step.
    destruct (Hfail g1) as [e He].
    destruct (cv_try self K0 g1) as [r g']; cbn [fst] in He; subst r.
    destruct (gtb zero (fst best1)) eqn:Hgt; cbn [fst].
    - repeat split; assumption.
    - destruct Hst as [-> | [Hinf Hin]]; [discriminate|].
      repeat split; assumption. }
  rewrite <- E in H; exact H.
Qed.

End FurtherSelectorFacts.

(** * Further properties of the recognizer *)

Lemma dict_set_keeps {V : Type} (d : dict V) (k : string) (v : V) (w : string) :
  In w (keys d) -> In w (keys (dict_set d k v)).
Proof.
  induction d as [|[k' v'] d IH]; simpl; [intros []|].
  destruct (String.eqb k' k); simpl; intuition.
Qed.

Lemma dict_set_key {V : Type} (d : dict V) (k : string) (v : V) :
  In k (keys (dict_set d k v)).
Proof.
  induction d as [|[k' v'] d IH]; simpl; [auto|].
  destruct (String.eqb_spec k' k) as [->|_]; simpl; auto.
Qed.

Lemma dict_set_NoDup {V : Type} (d : dict V) (k : string) (v : V) :
  NoDup (keys d) -> NoDup (keys (dict_set d k v)).
Proof.
  induction d as [|[k' v'] d IH]; simpl; intros Hnd.
  - constructor; [intros []|constructor].
  - inversion Hnd as [|? ? Hk' Hnd']; subst.
    destruct (String.eqb_spec k' k) as [->|Hne]; simpl.
    + constructor; assumption.
    + constructor; [|auto].
      intros Hin; apply dict_set_keys in Hin as [->|Hin]; auto.
Qed.

Section FurtherRecognizerFacts.
Context {L : Library}.

Lemma record_scores_NoDup (X_test : array) (lengths_test : list nat)
    (models : dict (option model)) (d : dict float) :
  NoDup (keys d) -> NoDup (keys (record_scores X_test lengths_test models d)).
Proof.
  revert d; induction models as [|[w m] models IH]; intros d Hnd; [assumption|].
  cbn [record_scores fold_left fst snd].
  destruct (score m X_test lengths_test) as [s|e].
  - apply (IH (dict_set d w s)); apply dict_set_NoDup; assumption.
  - apply (IH d); assumption.
Qed.

Lemma record_scores_keeps (X_test : array) (lengths_test : list nat)
    (models : dict (option model)) (d : dict float) (w : string) :
  In w (keys d) -> In w (keys (record_scores X_test lengths_test models d)).
Proof.
  revert d; induction models as [|[w' m] models IH]; intros d Hin; [assumption|].
  cbn [record_scores fold_left fst snd].
  destruct (score m X_test lengths_test) as [s|e].
  - apply (IH (dict_set d w' s)); apply dict_set_keeps; assumption.
  - apply (IH d); assumption.
Qed.

(** X10.  The score map of a test item has pairwise distinct keys, whatever
    the model map, and a guess that is not [None] is one of them: looking
    the guess up in the score map of its item succeeds. *)
Theorem recognize_item_lookup (models : dict (option model)) (t : Xlengths) :
  NoDup (keys (fst (recognize_item models t))) /\
  (forall w, snd (recognize_item models t) = Some w ->
             exists s, dict_get (fst (recognize_item models t)) w = Ok s).
Proof.
  destruct t as [X_test lengths_test]; rewrite recognize_item_fold; cbn [fst snd].
  split; [apply record_scores_NoDup; constructor|].
  intros w Hw; apply dict_get_found.
  destruct (guess_spec X_test lengths_test models)
    as [(m1 & w' & m & s & m2 & -> & Hs & _ & _ & _ & E) | [_ E]];
    rewrite E in Hw; [|discriminate].
  injection Hw as ->.
  unfold record_scores; rewrite fold_left_app; cbn [fold_left fst snd].
  rewrite Hs; apply record_scores_keeps, dict_set_key.
Qed.

Lemma recognize_step_none (X_test : array) (lengths_test : list nat)
    (models : dict (option model)) (st : dict float * (float * option string)) :
  fold_left (recognize_step X_test lengths_test) (filter has_model models) st
  = fold_left (recognize_step X_test lengths_test) models st.
Proof.
  revert st; induction models as [|[w [m|]] models IH]; intros st;
    [reflexivity| |].
  - cbn [filter has_model snd fold_left]; apply IH.
  - cbn [filter has_model snd fold_left]; rewrite IH; f_equal.
    destruct st as [d [b gs]]; reflexivity.
Qed.

(** X11.  The entries of the model map that hold [None], as a selector
    returns when no model could be fitted, are ignored by [recognize]:
    dropping them from the model map changes nothing and, the keys of the
    model map being distinct, their words appear in no score map and are
    never guessed. *)
Theorem recognize_ignores_None (models : dict (option model))
    (test_set : SinglesData) :
  recognize (filter has_model models) test_set = recognize models test_set /\
  (NoDup (keys models) ->
   forall w, In (w, None) models ->
             (forall d, In d (fst (recognize models test_set)) ->
                        ~ In w (keys d)) /\
             ~ In (Some w) (snd (recognize models test_set))).
Proof.
  assert (E : recognize (filter has_model models) test_set
              = recognize models test_set).
  { rewrite !recognize_map; f_equal; apply map_ext; intros [X_test lengths_test];
      unfold recognize_item; rewrite recognize_step_none; reflexivity. }
  split; [assumption|]; intros Hnd w Hnone.
  assert (Hw : ~ In w (keys (filter has_model models))).
  { intros Hin; apply in_map_iff in Hin as ([w' m] & Ew & Hin).
    cbn [fst] in Ew; subst w'.
    apply filter_In in Hin as [Hin Hm].
    pose proof (dict_get_In models w None Hnd Hnone) as G.
    rewrite (dict_get_In models w m Hnd Hin) in G; injection G as ->.
    discriminate. }
  rewrite <- E, recognize_map; cbn [fst snd]; split.
  - intros d Hd Hin; apply Hw.
    apply in_map_iff in Hd as ([X_test lengths_test] & <- & _).
    rewrite recognize_item_fold in Hin; cbn [fst] in Hin.
    destruct (proj2 (record_scores_bounds X_test lengths_test
                       (filter has_model models) []) w Hin) as [[]|]; assumption.
  - intros Hin; apply Hw.
    apply in_map_iff in Hin as ([X_test lengths_test] & Eg & _).
    rewrite recognize_item_fold in Eg; cbn [snd] in Eg.
    destruct (guess_spec X_test lengths_test (filter has_model models))
      as [(m1 & w' & m & s & m2 & Em & _ & _ & _ & _ & Es) | [_ Es]];
      rewrite Es in Eg; [|discriminate].
    injection Eg as ->; rewrite Em.
    unfold keys; rewrite map_app; apply in_or_app; right; left; reflexivity.
Qed.

(** X12.  [recognize] treats the test items one by one: the result for no
    item is a pair of empty lists, and the result for two test sets one
    after the other is the results of each, one after the other. *)
Theorem recognize_app (models : dict (option model))
    (test_set1 test_set2 : SinglesData) :
  recognize models [] = ([], []) /\
  recognize models (test_set1 ++ test_set2)
  = (fst (recognize models test_set1) ++ fst (recognize models test_set2),
     snd (recognize models test_set1) ++ snd (recognize models test_set2)).
Proof.
  split; [reflexivity|].
  rewrite !recognize_map; cbn [fst snd]; unfold values.
  rewrite !map_app; reflexivity.
Qed.

(** X13.  When no model of the model map can score any item of the test
    set, in particular when the model map is empty, [recognize] returns an
    empty score map and the guess [None] for every item. *)
Theorem recognize_no_score (models : dict (option model))
    (test_set : SinglesData) :
  (forall w m X_test lengths_test,
      In (w, m) models -> In (X_test, lengths_test) (values test_set) ->
      exists e, score m X_test lengths_test = Raise e) ->
  recognize models test_set
  = (repeat [] (List.length test_set), repeat None (List.length test_set)).
Proof.
  intros Hfail; rewrite recognize_map.
  assert (Hitem : forall t, In t (values test_set) ->
                            recognize_item models t = ([], None)).
  { intros [X_test lengths_test] Ht; unfold recognize_item.
    assert (H : forall ms st,
               incl ms models ->
               fold_left (recognize_step X_test lengths_test) ms st = st).
    { induction ms as [|[w m] ms IH]; intros st Hincl; [reflexivity|].
      cbn [fold_left]; rewrite <- (IH st) at 2
        by (intros x Hx; apply Hincl; right; assumption).
      f_equal; unfold recognize_step; destruct st as [d [b gs]].
      destruct (Hfail w m X_test lengths_test) as [e ->]; auto.
      apply Hincl; left; reflexivity. }
    rewrite H by apply incl_refl; reflexivity. }
  assert (Hmap : forall (A : Type) (f : Xlengths -> A) (c : A) (ts : list Xlengths),
             (forall t, In t ts -> f t = c) ->
             map f ts = repeat c (List.length ts)).
  { intros A f c ts; induction ts as [|t ts IH]; intros Hc; [reflexivity|].
    cbn [map List.length repeat]; rewrite Hc by (left; reflexivity).
    rewrite IH; [reflexivity|]; intros t' Ht'; apply Hc; right; assumption. }
  replace (List.length test_set) with (List.length (values test_set))
    by apply length_map.
  f_equal; apply Hmap; intros t Ht; rewrite (Hitem t Ht); reflexivity.
Qed.

End FurtherRecognizerFacts.

(** ** Examples of the further properties *)

(** A range from 5 down to 4: nothing is tried. *)
Lemma select_empty_range_reversed :
  SelectorBIC_select (L := bic_library) reversed_selector = Ok None /\
  SelectorDIC_select (L := bic_library) reversed_selector = Ok None /\
  SelectorCV_select (L := bic_library) reversed_selector 0%nat = (Ok None, 0%nat).
Proof.
  apply (select_empty_range (L := bic_library) reversed_selector 0%nat).
  reflexivity.
Defined.

(** A word without any sequence. *)
Lemma SelectorBIC_select_no_rows_empty :
  bic_try (L := bic_library) empty_selector 2 = Raise IndexError /\
  SelectorBIC_select (L := bic_library) empty_selector = Ok None.
Proof.
  destruct (SelectorBIC_select_no_rows (L := bic_library) empty_selector eq_refl)
    as (_ & Hidx & Hsel).
  split; [|exact Hsel].
  exact (Hidx 2 (2, []) (of_Z (-100)) eq_refl eq_refl).
Defined.

(** The BIC selector on CAT returns a model of the range 2 to 4. *)
Lemma SelectorBIC_select_returns_model_cat :
  exists K m s,
    min_n_components cat_selector <= K <= max_n_components cat_selector /\
    bic_search (L := bic_library) cat_selector = (s, K) /\
    bic_try (L := bic_library) cat_selector K = Ok s /\
    GaussianHMM_fit (Library := bic_library) K (random_state cat_selector)
                    (X cat_selector) (lengths cat_selector) = Ok m /\
    SelectorBIC_select (L := bic_library) cat_selector = Ok (Some m).
Proof.
  apply (SelectorBIC_select_returns_model (L := bic_library) cat_selector).
  exists 2, (S754_finite false 8084965922785381 (-45)); repeat split.
  vm_compute; auto.
Defined.

(** The DIC selector on CAT returns a model of the range 2 to 4. *)
Lemma SelectorDIC_select_returns_model_cat :
  exists K m s,
    min_n_components cat_selector <= K <= max_n_components cat_selector /\
    dic_search (L := dic_library) cat_selector = (s, K) /\
    dic_try (L := dic_library) cat_selector K = Ok s /\
    GaussianHMM_fit (Library := dic_library) K (random_state cat_selector)
                    (X cat_selector) (lengths cat_selector) = Ok m /\
    SelectorDIC_select (L := dic_library) cat_selector = Ok (Some m).
Proof.
  apply (SelectorDIC_select_returns_model (L := dic_library) cat_selector).
  exists 2, (of_Z 50); repeat split.
  vm_compute; auto.
Defined.

(** Models that cannot score DOG: the turn of 2 states raises and 2 states
    are not chosen. *)
Lemma dic_try_other_word_failure_dog :
  (exists e, dic_try (L := narrow_library) cat_selector 2 = Raise e) /\
  (2 <> 0 -> snd (dic_search (L := narrow_library) cat_selector) <> 2).
Proof.
  apply (dic_try_other_word_failure (L := narrow_library) cat_selector 2
           (2, [5; 6; 4]%nat) "DOG"%string
           (fst (xlengths_of DOG)) (snd (xlengths_of DOG)) LibraryError).
  - exact corpus_keys_NoDup.
  - reflexivity.
  - right; left; reflexivity.
  - discriminate.
  - reflexivity.
Defined.

(** Two numbers of states, the first of which fails: two shuffles. *)
Lemma SelectorCV_select_draws_pair :
  snd (SelectorCV_select (L := partial_library) pair_selector 0%nat)
  = cv_draws (L := partial_library) pair_selector (components pair_selector) 0%nat.
Proof.
  apply (SelectorCV_select_draws (L := partial_library) pair_selector 0%nat).
  vm_compute; discriminate.
Defined.

(** Every fold of 2 states fails: the best score is not below 0. *)
Lemma cv_search_failed_candidate_pair :
  ltb (fst (fst (cv_search (L := starved_library) pair_selector 0%nat))) zero
  = false /\
  gtb (fst (fst (cv_search (L := starved_library) pair_selector 0%nat))) neg_inf
  = true /\
  In (snd (fst (cv_search (L := starved_library) pair_selector 0%nat)))
     (components pair_selector) /\
  fst (SelectorCV_select (L := starved_library) pair_selector 0%nat)
  = Ok (base_model (L := starved_library) pair_selector
          (snd (fst (cv_search (L := starved_library) pair_selector 0%nat)))).
Proof.
  apply (cv_search_failed_candidate (L := starved_library) pair_selector 2 0%nat).
  - vm_compute; auto.
  - intros g'; exists LibraryError; reflexivity.
Defined.

(** A model map none of whose selections gave a model. *)
Lemma recognize_no_score_none :
  recognize (L := recognizer_library) none_models test_items
  = (repeat [] (List.length test_items), repeat None (List.length test_items)).
Proof.
  apply (recognize_no_score (L := recognizer_library) none_models test_items).
  intros w m X_test lengths_test [E|[E|[]]] _; injection E as <- <-;
    exists AttributeError; reflexivity.
Defined.
